(** * market-dashboard: the /analyze and /health endpoints of app.py

    A shallow embedding of [src/app.py].  Python values that arrive in the
    request body are modelled dynamically ([pyval]); exceptions are an
    explicit error type; the calls to the outside world (HTTP GET, sleep,
    print) are recorded in an event log that is threaded through every
    function, and the answers of the network are a parameter of the
    development. *)

From Stdlib Require Import ZArith NArith List String Ascii Bool Lia DecimalString.
Import ListNotations.

Set Warnings "-register-all".
Open Scope string_scope.
Open Scope list_scope.

(* ================================================================= *)
(** ** Strings *)

(** Python strings are modelled by [string]; a character is one code point
    in the range 0..255. *)
Module Str.

(** [str.isspace] on the code points below 256. *)
Definition is_space (c : ascii) : bool :=
  let n := N_of_ascii c in
  (((9 <=? n) && (n <=? 13)) || ((28 <=? n) && (n <=? 32))
   || (n =? 133) || (n =? 160))%N.

Fixpoint lstrip (s : string) : string :=
  match s with
  | EmptyString => EmptyString
  | String c r => if is_space c then lstrip r else s
  end.

(** [rstrip] keeps a character when it is not a space or when something
    is kept after it. *)
Fixpoint rstrip (s : string) : string :=
  match s with
  | EmptyString => EmptyString
  | String c r =>
      match rstrip r with
      | EmptyString => if is_space c then EmptyString else String c EmptyString
      | r' => String c r'
      end
  end.

(** [s.strip()] *)
Definition strip (s : string) : string := rstrip (lstrip s).

(** [s[:n]] *)
Definition take (n : nat) (s : string) : string := substring 0 n s.

(** [s[1:]] *)
Definition tail (s : string) : string :=
  match s with
  | EmptyString => EmptyString
  | String _ r => r
  end.

(** [bool(s)]: a string is true when it is not empty. *)
Definition nonempty (s : string) : bool :=
  match s with
  | EmptyString => false
  | String _ _ => true
  end.

(** [s.replace(old, new)] for a non-empty [old]: occurrences are replaced
    from left to right and do not overlap.  [skip] counts the characters
    of the current occurrence that are still to be dropped. *)
Fixpoint replace_from (old new : string) (skip : nat) (s : string) : string :=
  match s with
  | EmptyString => EmptyString
  | String c r =>
      match skip with
      | S k => replace_from old new k r
      | O =>
          if prefix old s
          then new ++ replace_from old new (String.length old - 1) r
          else String c (replace_from old new 0 r)
      end
  end.

(** With an empty [old], Python puts [new] before every character and at
    the end. *)
Fixpoint intersperse (new s : string) : string :=
  match s with
  | EmptyString => new
  | String c r => new ++ String c (intersperse new r)
  end.

Definition replace (old new s : string) : string :=
  match old with
  | EmptyString => intersperse new s
  | String _ _ => replace_from old new 0 s
  end.

(** [needle in s] *)
Fixpoint contains (needle s : string) : bool :=
  prefix needle s
  || match s with
     | EmptyString => false
     | String _ r => contains needle r
     end.

End Str.

(* ================================================================= *)
(** ** Python values, numbers and exceptions *)

(** A float is a signed dyadic number [m * 2^e], an infinity or a NaN.
    Every IEEE double is of this form. *)
Inductive pyfloat : Type :=
| FFinite (neg : bool) (m : N) (e : Z)
| FInf (neg : bool)
| FNan.

(** What [request.json] can hold. A dict is the list of its items; a key
    is looked up from the front. *)
Inductive pyval : Type :=
| VNone
| VBool (b : bool)
| VInt (z : Z)
| VFloat (f : pyfloat)
| VStr (s : string)
| VList (l : list pyval)
| VDict (d : list (string * pyval)).

(** The result of [abs] on a number. *)
Inductive pynum : Type :=
| NInt (z : Z)
| NFloat (f : pyfloat).

(** Instances of [Exception]. [LibraryError] stands for what [requests],
    [bs4], [flask] and the standard output raise; it carries the class
    name and [str(e)]. *)
Inductive exn : Type :=
| KeyError (key : string)
| TypeError (msg : string)
| AttributeError (msg : string)
| OverflowError (msg : string)
| LibraryError (cls msg : string).

(** [str(e)]; a [KeyError] prints the [repr] of its key. *)
Definition str_exn (e : exn) : string :=
  match e with
  | KeyError key => "'" ++ key ++ "'"
  | TypeError msg | AttributeError msg | OverflowError msg => msg
  | LibraryError _ msg => msg
  end.

Inductive result (A : Type) : Type :=
| Ok (a : A)
| Raise (e : exn).
Arguments Ok {A} a.
Arguments Raise {A} e.

Definition type_name (v : pyval) : string :=
  match v with
  | VNone => "NoneType"
  | VBool _ => "bool"
  | VInt _ => "int"
  | VFloat _ => "float"
  | VStr _ => "str"
  | VList _ => "list"
  | VDict _ => "dict"
  end.

Fixpoint dict_lookup (key : string) (d : list (string * pyval)) : option pyval :=
  match d with
  | [] => None
  | (k, v) :: rest => if String.eqb k key then Some v else dict_lookup key rest
  end.

(** [bool(v)] *)
Definition truthy (v : pyval) : bool :=
  match v with
  | VNone => false
  | VBool b => b
  | VInt z => negb (z =? 0)%Z
  | VFloat (FFinite _ m _) => negb (m =? 0)%N
  | VFloat _ => true
  | VStr s => Str.nonempty s
  | VList l => match l with [] => false | _ => true end
  | VDict d => match d with [] => false | _ => true end
  end.

(** [v.get(key, default)] *)
Definition py_get (v : pyval) (key : string) (default : pyval) : result pyval :=
  match v with
  | VDict d =>
      Ok (match dict_lookup key d with Some x => x | None => default end)
  | _ => Raise (AttributeError
                  ("'" ++ type_name v ++ "' object has no attribute 'get'"))
  end.

(** [v[key]] for a string key. *)
Definition py_getitem (v : pyval) (key : string) : result pyval :=
  match v with
  | VDict d =>
      match dict_lookup key d with
      | Some x => Ok x
      | None => Raise (KeyError key)
      end
  | VStr _ => Raise (TypeError "string indices must be integers, not 'str'")
  | VList _ =>
      Raise (TypeError "list indices must be integers or slices, not str")
  | _ => Raise (TypeError ("'" ++ type_name v ++ "' object is not subscriptable"))
  end.

(** The items a [for] loop over [v] visits. *)
Definition py_iter (v : pyval) : result (list pyval) :=
  match v with
  | VList l => Ok l
  | VStr s => Ok (map (fun c => VStr (String c EmptyString)) (list_ascii_of_string s))
  | VDict d => Ok (map (fun kv => VStr (fst kv)) d)
  | _ => Raise (TypeError ("'" ++ type_name v ++ "' object is not iterable"))
  end.

(** [v > 0] *)
Definition py_gt0 (v : pyval) : result bool :=
  match v with
  | VBool b => Ok b
  | VInt z => Ok (0 <? z)%Z
  | VFloat (FFinite neg m _) => Ok (negb neg && (0 <? m)%N)
  | VFloat (FInf neg) => Ok (negb neg)
  | VFloat FNan => Ok false
  | _ => Raise (TypeError ("'>' not supported between instances of '"
                           ++ type_name v ++ "' and 'int'"))
  end.

(** [abs(v)] *)
Definition py_abs (v : pyval) : result pynum :=
  match v with
  | VBool b => Ok (NInt (if b then 1 else 0))
  | VInt z => Ok (NInt (Z.abs z))
  | VFloat (FFinite _ m e) => Ok (NFloat (FFinite false m e))
  | VFloat (FInf _) => Ok (NFloat (FInf false))
  | VFloat FNan => Ok (NFloat FNan)
  | _ => Raise (TypeError ("bad operand type for abs(): '" ++ type_name v ++ "'"))
  end.

(** [symbol.replace(old, new)] on a value that may not be a string. *)
Definition py_replace (v : pyval) (old new : string) : result string :=
  match v with
  | VStr s => Ok (Str.replace old new s)
  | _ => Raise (AttributeError
                  ("'" ++ type_name v ++ "' object has no attribute 'replace'"))
  end.

(* ================================================================= *)
(** ** Formatting a number with [:.2f] *)

Module Fmt.

Definition N_to_string (n : N) : string :=
  NilEmpty.string_of_uint (N.to_uint n).

Definition digit_char (d : N) : ascii := ascii_of_N (48 + d).

(** The [k] lowest decimal digits of [n], most significant first: what
    [%0kd] prints for [n < 10^k]. *)
Fixpoint fixed_digits (k : nat) (n : N) : string :=
  match k with
  | O => EmptyString
  | S k' => fixed_digits k' (n / 10) ++ String (digit_char (n mod 10)) EmptyString
  end.

(** [%0kd]: at least [k] digits, padded with zeros on the left. *)
Definition zero_pad (k : nat) (n : N) : string :=
  if (n <? 10 ^ N.of_nat k)%N then fixed_digits k n else N_to_string n.

(** [num / den] rounded to the nearest integer, ties to the even one. *)
Definition round_half_even (num den : N) : N :=
  let q := (num / den)%N in
  let r := (num mod den)%N in
  if (2 * r <? den)%N then q
  else if (den <? 2 * r)%N then (q + 1)%N
  else if N.even q then q else (q + 1)%N.

(** [m * 2^e] in hundredths, correctly rounded. *)
Definition hundredths (m : N) (e : Z) : N :=
  if (0 <=? e)%Z then (m * 2 ^ Z.to_N e * 100)%N
  else round_half_even (m * 100) (2 ^ Z.to_N (- e)).

(** [format(f, '.2f')] *)
Definition format_float_2f (f : pyfloat) : string :=
  match f with
  | FFinite neg m e =>
      let h := hundredths m e in
      (if neg then "-" else "")
      ++ N_to_string (h / 100) ++ "." ++ zero_pad 2 (h mod 100)
  | FInf neg => if neg then "-inf" else "inf"
  | FNan => "nan"
  end.

(** [float(z)]: the nearest double, ties to even; an integer that rounds
    to [2^1024] or more does not convert. *)
Definition int_to_float (z : Z) : result pyfloat :=
  let a := Z.abs_N z in
  let neg := (z <? 0)%Z in
  let bits := N.size a in
  if (bits <=? 53)%N then Ok (FFinite neg a 0)
  else
    let sh := (bits - 53)%N in
    let q := round_half_even a (2 ^ sh) in
    if (2 ^ 1024 <=? q * 2 ^ sh)%N
    then Raise (OverflowError "int too large to convert to float")
    else Ok (FFinite neg q (Z.of_N sh)).

(** [format(x, '.2f')] for a number: an [int] is converted to [float]
    first. *)
Definition format_2f (x : pynum) : result string :=
  match x with
  | NFloat f => Ok (format_float_2f f)
  | NInt z =>
      match int_to_float z with
      | Ok f => Ok (format_float_2f f)
      | Raise e => Raise e
      end
  end.

End Fmt.

(** 3.14 and -2.0 as doubles. *)
Definition float_3_14 : pyfloat := FFinite false 7070651414971679 (-51).
Definition float_neg_2 : pyfloat := FFinite true 1 1.

(* ================================================================= *)
(** ** datetime *)

(** A naive [datetime] as [datetime.now()] returns it. *)
Record datetime : Type := {
  year : N; month : N; day : N;
  hour : N; minute : N; second : N; microsecond : N
}.

(** The ranges the [datetime] class guarantees for its fields. *)
Definition valid_datetime (t : datetime) : Prop :=
  (1 <= year t <= 9999 /\ 1 <= month t <= 12 /\ 1 <= day t <= 31
   /\ hour t <= 23 /\ minute t <= 59 /\ second t <= 59
   /\ microsecond t <= 999999)%N.

(** [t.isoformat()]: [YYYY-MM-DDTHH:MM:SS], followed by [.ffffff] when the
    microsecond is not zero. *)
Definition isoformat (t : datetime) : string :=
  Fmt.zero_pad 4 (year t) ++ "-" ++ Fmt.zero_pad 2 (month t) ++ "-"
  ++ Fmt.zero_pad 2 (day t) ++ "T" ++ Fmt.zero_pad 2 (hour t) ++ ":"
  ++ Fmt.zero_pad 2 (minute t) ++ ":" ++ Fmt.zero_pad 2 (second t)
  ++ (if (microsecond t =? 0)%N then ""
      else "." ++ Fmt.zero_pad 6 (microsecond t)).

(* ================================================================= *)
(** ** The outside world *)

(** What the program does to the outside, in the order it does it. *)
Inductive event : Type :=
| HttpGet (url user_agent : string) (timeout : nat)
| Sleep (seconds : nat)
| Print (line : string).

(** A computation reads and extends the log of events and returns a value
    or raises. *)
Definition M (A : Type) : Type := list event -> result A * list event.

Definition ret {A} (a : A) : M A := fun log => (Ok a, log).

Definition bind {A B} (m : M A) (k : A -> M B) : M B :=
  fun log =>
    match m log with
    | (Ok a, log') => k a log'
    | (Raise e, log') => (Raise e, log')
    end.

(** [try: m except Exception as e: h e] *)
Definition try_except {A} (m : M A) (h : exn -> M A) : M A :=
  fun log =>
    match m log with
    | (Ok a, log') => (Ok a, log')
    | (Raise e, log') => h e log'
    end.

Definition lift {A} (r : result A) : M A := fun log => (r, log).

Definition emit (ev : event) : M unit := fun log => (Ok tt, log ++ [ev]).

Declare Scope py_scope.
Delimit Scope py_scope with py.
Notation "x <- m ;; k" := (bind m (fun x => k))
  (at level 100, m at next level, right associativity) : py_scope.
Notation "m ;;; k" := (bind m (fun _ => k))
  (at level 100, right associativity) : py_scope.
Open Scope py_scope.

(** [time.sleep(n)] *)
Definition sleep (n : nat) : M unit := emit (Sleep n).

(* ================================================================= *)
(** ** The parsed page, as the selectors of the scrapers see it *)

(** An [<a>] element: its text and its [href] attribute when it has one. *)
Record a_tag : Type := { a_text : string; a_href : option string }.

(** An [<h3 class="Mb(5px)">]: [get_text()] and [find_parent('a')]. *)
Record h3_tag : Type := { h3_text : string; h3_parent_a : option a_tag }.

(** An [<article>]: [find('a', class_='JtKRv')]. *)
Record article_tag : Type := { article_a_JtKRv : option a_tag }.

(** A [<tr>]: [find('a')]. *)
Record tr_tag : Type := { tr_a : option a_tag }.

(** A [BeautifulSoup] object:
    [find_all('h3', class_='Mb(5px)')], [find_all('article')] and, for
    [find('table', class_='fullview-news-outer')], the [find_all('tr')] of
    the table that was found. *)
Record soup : Type := {
  find_all_h3_Mb5px : list h3_tag;
  find_all_article : list article_tag;
  find_table_news : option (list tr_tag)
}.

(** [{'drivers': ..., 'sources': ...}] as a scraper returns it. *)
Record SourceResult : Type := {
  sr_drivers : list string;
  sr_sources : list string
}.

(** [{"drivers": ..., "sources": ..., "method": ...}] *)
Record AnalysisResult : Type := {
  drivers : list string;
  sources : list string;
  method : string
}.

Definition USER_AGENT : string :=
  "Mozilla/5.0 (Windows NT 10.0; Win64; x64) AppleWebKit/537.36".

(** [f"{title[:50]}... - {link}"] *)
Definition citation (title link : string) : string :=
  Str.take 50 title ++ "... - " ++ link.

(** [if title: drivers.append(title); if link: sources.append(...)] *)
Definition append_article (acc : list string * list string)
    (title link : string) : list string * list string :=
  let '(drivers, sources) := acc in
  if Str.nonempty title
  then (drivers ++ [title],
        if Str.nonempty link then sources ++ [citation title link] else sources)
  else acc.

(** The body of the loop of [scrape_yahoo_finance_news]. *)
Definition yahoo_article (acc : list string * list string)
    (article : h3_tag) : list string * list string :=
  let title := Str.strip (h3_text article) in
  let link : string :=
    match h3_parent_a article with
    | Some link_elem =>
        match a_href link_elem with
        | Some href => ("https://finance.yahoo.com" ++ href)%string
        | None => ""
        end
    | None => ""
    end in
  append_article acc title link.

(** The body of the loop of [scrape_google_news]. *)
Definition google_article (acc : list string * list string)
    (article : article_tag) : list string * list string :=
  match article_a_JtKRv article with
  | Some title_elem =>
      let title := Str.strip (a_text title_elem) in
      let link : string :=
        match a_href title_elem with
        | Some href => ("https://news.google.com" ++ Str.tail href)%string
        | None => ""
        end in
      append_article acc title link
  | None => acc
  end.

(** The body of the loop of [scrape_finviz_news]. *)
Definition finviz_item (acc : list string * list string)
    (item : tr_tag) : list string * list string :=
  match tr_a item with
  | Some link_elem =>
      let title := Str.strip (a_text link_elem) in
      let link : string :=
        match a_href link_elem with
        | Some href => href
        | None => ""
        end in
      append_article acc title link
  | None => acc
  end.

(** [{'drivers': drivers, 'sources': sources} if drivers else None] *)
Definition source_result (acc : list string * list string) : option SourceResult :=
  match fst acc with
  | [] => None
  | _ :: _ => Some {| sr_drivers := fst acc; sr_sources := snd acc |}
  end.

(** [list(dict.fromkeys(l))]: the keys are inserted in order; a key that is
    already in the dict keeps its place. *)
Definition fromkeys (l : list string) : list string :=
  fold_left
    (fun keys k => if existsb (String.eqb k) keys then keys else keys ++ [k])
    l [].

(** [if news: drivers.extend(news['drivers']); sources.extend(news['sources'])] *)
Definition extend (acc : list string * list string)
    (news : option SourceResult) : list string * list string :=
  match news with
  | Some r => (fst acc ++ sr_drivers r, snd acc ++ sr_sources r)
  | None => acc
  end.

(** The "Deduplicate and limit" step. *)
Definition dedupe_and_limit (acc : list string * list string)
  : list string * list string :=
  (firstn 3 (fromkeys (fst acc)), firstn 5 (fromkeys (snd acc))).

(* ================================================================= *)
(** ** Notions of the specification *)

(** Deduplication as the specification words it: the first occurrence of a
    string stays where it is and the later ones go. *)
Fixpoint dedupe_first (l : list string) : list string :=
  match l with
  | [] => []
  | x :: rest => x :: filter (fun y => negb (String.eqb y x)) (dedupe_first rest)
  end.

(** An element of [symbols] that carries [symbol], [name] and
    [changePercent]. *)
Definition carries_keys (v : pyval) : bool :=
  match v with
  | VDict d =>
      match dict_lookup "symbol" d, dict_lookup "name" d,
            dict_lookup "changePercent" d with
      | Some _, Some _, Some _ => true
      | _, _, _ => false
      end
  | _ => false
  end.

(** The value an element has under a key ([VNone] when it has none). *)
Definition field (key : string) (v : pyval) : pyval :=
  match v with
  | VDict d => match dict_lookup key d with Some x => x | None => VNone end
  | _ => VNone
  end.

(** The first of the three keys, in the order the loop reads them, that a
    dict lacks. *)
Definition first_missing_key (d : list (string * pyval)) : option string :=
  match dict_lookup "symbol" d with
  | None => Some "symbol"
  | Some _ =>
      match dict_lookup "name" d with
      | None => Some "name"
      | Some _ =>
          match dict_lookup "changePercent" d with
          | None => Some "changePercent"
          | Some _ => None
          end
      end
  end.

(** Whether the text [needle] shows up somewhere in a value: in a string,
    in an element of a list, in a key or a value of a dict. *)
Fixpoint mentions (needle : string) (v : pyval) : bool :=
  match v with
  | VStr s => Str.contains needle s
  | VList l => existsb (mentions needle) l
  | VDict d =>
      existsb (fun kv => Str.contains needle (fst kv) || mentions needle (snd kv)) d
  | _ => false
  end.

(** A reader of the ISO-8601 extended format
    [YYYY-MM-DDThh:mm:ss] with an optional fraction of six digits. *)
Module Iso8601.

Definition is_digit (c : ascii) : bool :=
  let n := N_of_ascii c in ((48 <=? n) && (n <=? 57))%N.

Definition digit_val (c : ascii) : N := (N_of_ascii c - 48)%N.

(** Reads exactly [k] digits. *)
Fixpoint digits (k : nat) (acc : N) (s : string) : option (N * string) :=
  match k with
  | O => Some (acc, s)
  | S k' =>
      match s with
      | String c r =>
          if is_digit c then digits k' (acc * 10 + digit_val c)%N r else None
      | EmptyString => None
      end
  end.

(** Reads [k] digits and then the separator [sep]. *)
Definition number_then (k : nat) (sep : ascii) (s : string)
  : option (N * string) :=
  match digits k 0 s with
  | Some (n, String c r) => if Ascii.eqb c sep then Some (n, r) else None
  | _ => None
  end.

Definition in_range (lo n hi : N) : bool := ((lo <=? n) && (n <=? hi))%N.

Definition fraction (s : string) : option N :=
  match s with
  | EmptyString => Some 0%N
  | String c r =>
      if Ascii.eqb c "." then
        match digits 6 0 r with
        | Some (us, EmptyString) => Some us
        | _ => None
        end
      else None
  end.

Definition parse (s : string) : option datetime :=
  match number_then 4 "-" s with
  | None => None
  | Some (y, s) =>
  match number_then 2 "-" s with
  | None => None
  | Some (mo, s) =>
  match number_then 2 "T" s with
  | None => None
  | Some (d, s) =>
  match number_then 2 ":" s with
  | None => None
  | Some (h, s) =>
  match number_then 2 ":" s with
  | None => None
  | Some (mi, s) =>
  match digits 2 0 s with
  | None => None
  | Some (sec, s) =>
  match fraction s with
  | None => None
  | Some us =>
      if in_range 1 y 9999 && in_range 1 mo 12 && in_range 1 d 31
         && in_range 0 h 23 && in_range 0 mi 59 && in_range 0 sec 59
      then Some {| year := y; month := mo; day := d; hour := h;
                   minute := mi; second := sec; microsecond := us |}
      else None
  end end end end end end end.

End Iso8601.

(* ================================================================= *)
(** ** Some concrete worlds *)

Module Example.

Definition repr (v : pyval) : string :=
  match v with
  | VNone => "None"
  | VBool true => "True"
  | VBool false => "False"
  | VInt z => NilEmpty.string_of_int (Z.to_int z)
  | _ => "<" ++ type_name v ++ ">"
  end.

(** No site can be reached. *)
Definition offline (log : list event) (url : string) : result string :=
  Raise (LibraryError "ConnectionError" "connection refused").

(** Only the Yahoo page answers. *)
Definition yahoo_only (log : list event) (url : string) : result string :=
  if prefix "https://finance.yahoo.com/" url then Ok "yahoo"
  else Raise (LibraryError "ConnectionError" "connection refused").

(** Every site answers. *)
Definition online (log : list event) (url : string) : result string :=
  if prefix "https://finance.yahoo.com/" url then Ok "yahoo-links"
  else if prefix "https://news.google.com/" url then Ok "google"
  else Ok "finviz".

Definition headline (text : string) (href : option string) : a_tag :=
  {| a_text := text; a_href := href |}.

(** The pages behind the bodies the networks above return. *)
Definition parser (content : string) : result soup :=
  if String.eqb content "yahoo" then
    Ok {| find_all_h3_Mb5px :=
            [ {| h3_text := " Stocks rally "; h3_parent_a := None |} ];
          find_all_article := []; find_table_news := None |}
  else if String.eqb content "yahoo-links" then
    Ok {| find_all_h3_Mb5px :=
            [ {| h3_text := "A";
                 h3_parent_a := Some (headline "" (Some "/news/a")) |};
              {| h3_text := "B";
                 h3_parent_a := Some (headline "" (Some "/news/b")) |};
              {| h3_text := "";
                 h3_parent_a := Some (headline "" (Some "/news/none")) |} ];
          find_all_article := []; find_table_news := None |}
  else if String.eqb content "google" then
    Ok {| find_all_h3_Mb5px := [];
          find_all_article :=
            [ {| article_a_JtKRv := Some (headline "A" (Some "./read/a")) |};
              {| article_a_JtKRv := None |};
              {| article_a_JtKRv := Some (headline "C" None) |} ];
          find_table_news := None |}
  else if String.eqb content "finviz" then
    Ok {| find_all_h3_Mb5px := []; find_all_article := [];
          find_table_news :=
            Some [ {| tr_a := Some (headline "D" (Some "https://x.test/d")) |};
                   {| tr_a := Some (headline "B" (Some "")) |};
                   {| tr_a := Some (headline "E" (Some "https://x.test/e")) |};
                   {| tr_a := Some (headline "F" (Some "https://x.test/f")) |} ] |}
  else Raise (LibraryError "ParserRejectedMarkup" "not HTML").

(** A standard output that takes every line. *)
Definition console (log : list event) (line : string) : result unit := Ok tt.

(** A standard output that has been closed. *)
Definition closed_stdout (log : list event) (line : string) : result unit :=
  Raise (LibraryError "ValueError" "I/O operation on closed file.").

Definition now (log : list event) : datetime :=
  {| year := 2024; month := 1; day := 8;
     hour := 9; minute := 30; second := 0; microsecond := 123456 |}.

Definition instrument (symbol name : string) (change_percent : pyval) : pyval :=
  VDict [ ("symbol", VStr symbol); ("name", VStr name);
          ("changePercent", change_percent) ].

(** The fields of a request body. *)
Definition fields (symbols : list pyval) (start_date end_date : string)
  : list (string * pyval) :=
  [ ("symbols", VList symbols);
    ("startDate", VStr start_date); ("endDate", VStr end_date) ].

Definition sp500 : pyval := instrument "^GSPC" "S&P 500" (VFloat float_3_14).
Definition euro : pyval := instrument "EURUSD=X" "Euro" (VFloat float_neg_2).
Definition gold : pyval := instrument "GC=F" "Gold" (VInt 0).


(** An element without [changePercent]. *)
Definition incomplete : list (string * pyval) :=
  [ ("symbol", VStr "X"); ("name", VStr "Test Index") ].

(** A Yahoo page whose first three headlines are blank and whose fourth
    is not. *)
Definition blank_site (log : list event) (url : string) : result string :=
  Ok "blanks".

Definition blank_parser (content : string) : result soup :=
  Ok {| find_all_h3_Mb5px :=
          [ {| h3_text := "  "; h3_parent_a := None |};
            {| h3_text := ""; h3_parent_a := Some (headline "" (Some "/a")) |};
            {| h3_text := " "; h3_parent_a := None |};
            {| h3_text := "Markets today";
               h3_parent_a := Some (headline "" (Some "/news/today")) |} ];
        find_all_article := []; find_table_news := None |}.

End Example.

(* ================================================================= *)
(** ** The program *)

Section App.

(** [str(v)] of a value that is not a string; it only shows up inside
    URLs and sentences and is left open. *)
Variable py_repr : pyval -> string.

(** [requests.get(url, headers=headers, timeout=10).content]: the body of
    the answer, or the exception [requests] raises, given everything the
    program has done so far. *)
Variable network : list event -> string -> result string.

(** [BeautifulSoup(content, 'html.parser')] *)
Variable BeautifulSoup : string -> result soup.

(** Writing a line to the standard output, as [print] does: it may
    raise (the output is closed, the pipe is broken, the text cannot be
    encoded), given everything the program has done so far. *)
Variable stdout : list event -> string -> result unit.

(** [datetime.now()] *)
Variable clock : list event -> datetime.

(** [print(line)]: the line is in the log when it was written. *)
Definition print (line : string) : M unit :=
  fun log =>
    match stdout log line with
    | Ok _ => (Ok tt, log ++ [Print line])
    | Raise e => (Raise e, log)
    end.

(** [f"{v}"] *)
Definition py_str (v : pyval) : string :=
  match v with
  | VStr s => s
  | _ => py_repr v
  end.

(** [f"https://finance.yahoo.com/quote/{symbol}/news"] *)
Definition yahoo_url (symbol : pyval) : string :=
  "https://finance.yahoo.com/quote/" ++ py_str symbol ++ "/news".

(** [query = f"{name} stock market news"] and the search URL with the
    spaces of the query turned into [+]. *)
Definition google_url (name : pyval) : string :=
  let query := (py_str name ++ " stock market news")%string in
  "https://news.google.com/search?q=" ++ Str.replace " " "+" query
  ++ "&hl=en-US&gl=US&ceid=US:en".

(** [symbol.replace('^', '').replace('=X', '').replace('=F', '')] *)
Definition finviz_ticker (symbol : pyval) : result string :=
  match py_replace symbol "^" "" with
  | Ok t => Ok (Str.replace "=F" "" (Str.replace "=X" "" t))
  | Raise e => Raise e
  end.

Definition finviz_url (ticker : string) : string :=
  "https://finviz.com/quote.ashx?t=" ++ ticker.

Definition requests_get (url : string) : M string :=
  fun log => (network log url, log ++ [HttpGet url USER_AGENT 10]).

Definition scrape_yahoo_finance_news (symbol name : pyval)
  : M (option SourceResult) :=
  try_except
    (let url := yahoo_url symbol in
     content <- requests_get url ;;
     soup <- lift (BeautifulSoup content) ;;
     let articles := firstn 3 (find_all_h3_Mb5px soup) in
     ret (source_result (fold_left yahoo_article articles ([], []))))
    (fun e =>
       print ("Yahoo Finance scraping error: " ++ str_exn e) ;;;
       ret None).

Definition scrape_google_news (name change_percent : pyval)
  : M (option SourceResult) :=
  try_except
    (let url := google_url name in
     content <- requests_get url ;;
     soup <- lift (BeautifulSoup content) ;;
     let articles := firstn 3 (find_all_article soup) in
     ret (source_result (fold_left google_article articles ([], []))))
    (fun e =>
       print ("Google News scraping error: " ++ str_exn e) ;;;
       ret None).

Definition scrape_finviz_news (symbol name : pyval)
  : M (option SourceResult) :=
  try_except
    (ticker <- lift (finviz_ticker symbol) ;;
     let url := finviz_url ticker in
     content <- requests_get url ;;
     soup <- lift (BeautifulSoup content) ;;
     let found :=
       match find_table_news soup with
       | Some trs => fold_left finviz_item (firstn 3 trs) ([], [])
       | None => ([], [])
       end in
     ret (source_result found))
    (fun e =>
       print ("Finviz scraping error: " ++ str_exn e) ;;;
       ret None).

(** The "generic analysis" of [get_free_news_analysis]. *)
Definition fallback (symbol name change_percent : pyval)
  : M (list string * list string) :=
  positive <- lift (py_gt0 change_percent) ;;
  let direction := if positive : bool then "increased" else "decreased" in
  magnitude <- lift (py_abs change_percent) ;;
  amount <- lift (Fmt.format_2f magnitude) ;;
  stripped <- lift (py_replace symbol "^" "") ;;
  ret ([ (py_str name ++ " " ++ direction ++ " by " ++ amount
          ++ "% during this period.")%string;
         "Check financial news sources for detailed analysis of market conditions.";
         "Consider broader market trends and sector-specific factors." ],
       [ ("Yahoo Finance - https://finance.yahoo.com/quote/" ++ py_str symbol)%string;
         ("Google Finance - https://www.google.com/finance/quote/"
          ++ stripped ++ ":INDEXSP")%string ]).

(** The body of the [try] of [get_free_news_analysis]. *)
Definition aggregate (symbol name change_percent : pyval) : M AnalysisResult :=
  yahoo_news <- scrape_yahoo_finance_news symbol name ;;
  let acc := extend ([], []) yahoo_news in
  google_news <- scrape_google_news name change_percent ;;
  let acc := extend acc google_news in
  finviz_news <- scrape_finviz_news symbol name ;;
  let acc := extend acc finviz_news in
  let acc := dedupe_and_limit acc in
  acc <- match fst acc with
         | [] => fallback symbol name change_percent
         | _ :: _ => ret acc
         end ;;
  ret {| drivers := fst acc; sources := snd acc; method := "free_scraping" |}.

Definition error_result (e : exn) : AnalysisResult :=
  {| drivers := [("Unable to fetch news: " ++ str_exn e)%string];
     sources := [];
     method := "error" |}.

Definition get_free_news_analysis
    (symbol name change_percent start_date end_date : pyval)
  : M AnalysisResult :=
  try_except (aggregate symbol name change_percent)
             (fun e => ret (error_result e)).

(** The dict of an [AnalysisResult], as [jsonify] receives it. *)
Definition analysis_dict (a : AnalysisResult) : pyval :=
  VDict [ ("drivers", VList (map VStr (drivers a)));
          ("sources", VList (map VStr (sources a)));
          ("method", VStr (method a)) ].

(** What [analyses.append] adds for one instrument. *)
Definition analysis_item (symbol name change_percent : pyval)
    (analysis : AnalysisResult) : pyval :=
  VDict [ ("symbol", symbol); ("name", name);
          ("changePercent", change_percent);
          ("analysis", analysis_dict analysis) ].

(** The [for symbol_data in symbols] loop; [analyses] is the list built
    so far. *)
Fixpoint analyze_symbols (start_date end_date : pyval)
    (symbols : list pyval) (analyses : list pyval) : M (list pyval) :=
  match symbols with
  | [] => ret analyses
  | symbol_data :: rest =>
      symbol <- lift (py_getitem symbol_data "symbol") ;;
      name <- lift (py_getitem symbol_data "name") ;;
      change_percent <- lift (py_getitem symbol_data "changePercent") ;;
      analysis <- get_free_news_analysis symbol name change_percent
                    start_date end_date ;;
      let analyses :=
        analyses ++ [analysis_item symbol name change_percent analysis] in
      sleep 1 ;;;
      analyze_symbols start_date end_date rest analyses
  end.

(** A response: the argument of [jsonify] and the status code. *)
Definition response : Type := pyval * nat.

(** [POST /analyze]; [request_json] is what reading [request.json] gives. *)
Definition analyze_market (request_json : result pyval) : M response :=
  try_except
    (data <- lift request_json ;;
     symbols <- lift (py_get data "symbols" (VList [])) ;;
     start_date <- lift (py_get data "startDate" VNone) ;;
     end_date <- lift (py_get data "endDate" VNone) ;;
     if negb (truthy symbols)
     then ret (VDict [("error", VStr "No symbols provided")], 400)
     else
       items <- lift (py_iter symbols) ;;
       analyses <- analyze_symbols start_date end_date items [] ;;
       ret (VDict [("analyses", VList analyses)], 200))
    (fun e => ret (VDict [("error", VStr (str_exn e))], 500)).

(** [GET /health] *)
Definition health_check : M response :=
  fun log =>
    (Ok (VDict [ ("status", VStr "healthy");
                 ("method", VStr "free_scraping");
                 ("sources", VList [ VStr "Yahoo Finance";
                                     VStr "Google News";
                                     VStr "Finviz" ]);
                 ("timestamp", VStr (isoformat (clock log))) ],
         200),
     log).

(* --------------------------------------------------------------- *)
(** *** Running the monad *)

Ltac run :=
  unfold try_except, bind, lift, ret, sleep, print, emit,
    requests_get in *;
  cbn beta iota in *.

(** Fetching and parsing one page. *)
Definition fetch (log : list event) (url : string) : result soup :=
  match network log url with
  | Ok content => BeautifulSoup content
  | Raise e => Raise e
  end.

(** The line a scraper prints for the exception it has caught. *)
Definition error_line (site : string) (e : exn) : string :=
  site ++ " scraping error: " ++ str_exn e.

(** The standard output takes every line. *)
Definition writable : Prop := forall log line, stdout log line = Ok tt.

(** What a scraper does in its [except] block: it prints the line and
    returns "no result", unless the print raises. *)
Definition handled (log : list event) (site : string) (e : exn)
  : result (option SourceResult) * list event :=
  match stdout log (error_line site e) with
  | Ok _ => (Ok None, log ++ [Print (error_line site e)])
  | Raise e' => (Raise e', log)
  end.

Definition yahoo_found (page : soup) : list string * list string :=
  fold_left yahoo_article (firstn 3 (find_all_h3_Mb5px page)) ([], []).

Definition google_found (page : soup) : list string * list string :=
  fold_left google_article (firstn 3 (find_all_article page)) ([], []).

Definition finviz_found (page : soup) : list string * list string :=
  match find_table_news page with
  | Some trs => fold_left finviz_item (firstn 3 trs) ([], [])
  | None => ([], [])
  end.

(** A scraper that asks for [url]: the request, then the lists found on
    the page, or the [except] block when the request or the parser
    raised. *)
Definition scraper_outcome (found : soup -> list string * list string)
    (log : list event) (url site : string)
  : result (option SourceResult) * list event :=
  match fetch log url with
  | Ok page => (Ok (source_result (found page)), log ++ [HttpGet url USER_AGENT 10])
  | Raise e => handled (log ++ [HttpGet url USER_AGENT 10]) site e
  end.


(** A scraper call that ends with "no result". *)
Definition no_result (call : M (option SourceResult)) (log : list event) : Prop :=
  exists log', call log = (Ok None, log').

(** A scraper for the page at [url] gives "no result" when nothing was
    extracted from the parsed page, and, once the line for the exception
    is printed, when the request or the parser raised; the only exception
    that leaves it is the one that print raises. *)
Definition degrades (call : M (option SourceResult)) (url site : string)
    (found : soup -> list string * list string) : Prop :=
  forall log,
    (forall e,
        network log url = Raise e ->
        stdout (log ++ [HttpGet url USER_AGENT 10]) (error_line site e) = Ok tt ->
        no_result call log)
    /\ (forall content e,
           network log url = Ok content ->
           BeautifulSoup content = Raise e ->
           stdout (log ++ [HttpGet url USER_AGENT 10]) (error_line site e) = Ok tt ->
           no_result call log)
    /\ (forall content page,
           network log url = Ok content ->
           BeautifulSoup content = Ok page ->
           fst (found page) = [] -> no_result call log)
    /\ (forall e' log',
           call log = (Raise e', log') ->
           exists e,
             fetch log url = Raise e
             /\ stdout (log ++ [HttpGet url USER_AGENT 10]) (error_line site e)
                = Raise e').

(** The lists of the aggregator after the three scraper results have
    been merged, deduplicated and cut. *)
Definition merged (yahoo_news google_news finviz_news : option SourceResult)
  : list string * list string :=
  dedupe_and_limit
    (extend (extend (extend ([], []) yahoo_news) google_news) finviz_news).

(** The drivers of a scraper result, none for "no result". *)
Definition drivers_of (news : option SourceResult) : list string :=
  match news with Some r => sr_drivers r | None => [] end.

Definition sources_of (news : option SourceResult) : list string :=
  match news with Some r => sr_sources r | None => [] end.

(** The three shapes an [AnalysisResult] can have, given what the
    scrapers returned. *)
Inductive analysis_shape (y g f : option SourceResult)
  : AnalysisResult -> Prop :=
| shape_error e :
    fst (merged y g f) = [] -> analysis_shape y g f (error_result e)
| shape_scraped :
    fst (merged y g f) <> [] ->
    analysis_shape y g f {| drivers := fst (merged y g f);
                            sources := snd (merged y g f);
                            method := "free_scraping" |}
| shape_fallback d1 d2 d3 s1 s2 :
    fst (merged y g f) = [] ->
    analysis_shape y g f {| drivers := [d1; d2; d3]; sources := [s1; s2];
                            method := "free_scraping" |}.

(** [item] is the entry of the response for the instrument
    [symbol_data]. *)
Definition answers (symbol_data item : pyval) : Prop :=
  exists a,
    item = analysis_item (field "symbol" symbol_data)
             (field "name" symbol_data)
             (field "changePercent" symbol_data) a
    /\ (method a = "free_scraping" \/ method a = "error").

(** [item] is the entry of the response for the instrument [symbol_data],
    written out: the three values of the instrument as they came, and under
    "analysis" the drivers, sources and method of what the aggregator
    returned for them. *)
Definition entry_of (start_date end_date symbol_data item : pyval) : Prop :=
  exists a log_before log_after,
    get_free_news_analysis (field "symbol" symbol_data)
      (field "name" symbol_data) (field "changePercent" symbol_data)
      start_date end_date log_before = (Ok a, log_after)
    /\ item
       = VDict [ ("symbol", field "symbol" symbol_data);
                 ("name", field "name" symbol_data);
                 ("changePercent", field "changePercent" symbol_data);
                 ("analysis",
                  VDict [ ("drivers", VList (map VStr (drivers a)));
                          ("sources", VList (map VStr (sources a)));
                          ("method", VStr (method a)) ]) ].

(** The URLs of the GET requests in a stretch of the log, in order. *)
Fixpoint gets (evs : list event) : list string :=
  match evs with
  | [] => []
  | HttpGet url _ _ :: rest => url :: gets rest
  | _ :: rest => gets rest
  end.

(** The pauses in a stretch of the log, in order. *)
Fixpoint sleeps (evs : list event) : list nat :=
  match evs with
  | [] => []
  | Sleep n :: rest => n :: sleeps rest
  | _ :: rest => sleeps rest
  end.

(** A request with the fixed user agent and the timeout of 10; a pause of
    one second; any printed line. *)
Definition as_configured (ev : event) : Prop :=
  match ev with
  | HttpGet _ user_agent timeout => user_agent = USER_AGENT /\ timeout = 10
  | Sleep n => n = 1
  | Print _ => True
  end.

Definition is_dict (v : pyval) : bool :=
  match v with VDict _ => true | _ => false end.

Definition is_list (v : pyval) : bool :=
  match v with VList _ => true | _ => false end.

Definition is_str (v : pyval) : bool :=
  match v with VStr _ => true | _ => false end.

(** [int], [float] and [bool] values. *)
Definition is_number (v : pyval) : bool :=
  match v with VBool _ | VInt _ | VFloat _ => true | _ => false end.

(** Whether the character [c] occurs in [s]. *)
Fixpoint has_char (c : ascii) (s : string) : bool :=
  match s with
  | EmptyString => false
  | String a r => Ascii.eqb a c || has_char c r
  end.

(** A string that is not empty and has no white space at either end. *)
Definition trimmed (s : string) : Prop :=
  Str.nonempty s = true /\ Str.strip s = s.

(** [source] is the citation of one of the [titles], with a link. *)
Definition cites (titles : list string) (source : string) : Prop :=
  exists title link,
    In title titles /\ Str.nonempty link = true /\ source = citation title link.

(** What holds of the lists a scraper has collected after at most [n]
    elements. *)
Definition collected (n : nat) (acc : list string * list string) : Prop :=
  List.length (fst acc) <= n
  /\ List.length (snd acc) <= List.length (fst acc)
  /\ Forall trimmed (fst acc)
  /\ Forall (cites (fst acc)) (snd acc).

(** What holds of every result a scraper returns. *)
Definition well_formed_result (r : SourceResult) : Prop :=
  1 <= List.length (sr_drivers r) <= 3
  /\ List.length (sr_sources r) <= List.length (sr_drivers r)
  /\ Forall trimmed (sr_drivers r)
  /\ Forall (cites (sr_drivers r)) (sr_sources r).

Lemma scrape_yahoo_run symbol name log :
  scrape_yahoo_finance_news symbol name log
  = scraper_outcome yahoo_found log (yahoo_url symbol) "Yahoo Finance".
Proof.
  unfold scrape_yahoo_finance_news, scraper_outcome, handled, fetch, yahoo_found.
  run. destruct (network log (yahoo_url symbol)) as [content|e].
  - destruct (BeautifulSoup content); [reflexivity|].
    unfold error_line. destruct (stdout _ _); reflexivity.
  - unfold error_line. destruct (stdout _ _); reflexivity.
Qed.

Lemma scrape_google_run name change_percent log :
  scrape_google_news name change_percent log
  = scraper_outcome google_found log (google_url name) "Google News".
Proof.
  unfold scrape_google_news, scraper_outcome, handled, fetch, google_found.
  run. destruct (network log (google_url name)) as [content|e].
  - destruct (BeautifulSoup content); [reflexivity|].
    unfold error_line. destruct (stdout _ _); reflexivity.
  - unfold error_line. destruct (stdout _ _); reflexivity.
Qed.

Lemma scrape_finviz_run symbol name log :
  scrape_finviz_news symbol name log
  = match finviz_ticker symbol with
    | Ok ticker => scraper_outcome finviz_found log (finviz_url ticker) "Finviz"
    | Raise e => handled log "Finviz" e
    end.
Proof.
  unfold scrape_finviz_news, scraper_outcome, handled, fetch, finviz_found.
  run. destruct (finviz_ticker symbol) as [ticker|e].
  - destruct (network log (finviz_url ticker)) as [content|e].
    + destruct (BeautifulSoup content); [reflexivity|].
      unfold error_line. destruct (stdout _ _); reflexivity.
    + unfold error_line. destruct (stdout _ _); reflexivity.
  - unfold error_line. destruct (stdout _ _); reflexivity.
Qed.

(** What can be said of the outcome of a scraper. *)
Lemma handled_cases log site e :
  (exists e', handled log site e = (Raise e', log)
              /\ stdout log (error_line site e) = Raise e')
  \/ (handled log site e = (Ok None, log ++ [Print (error_line site e)])
      /\ exists u, stdout log (error_line site e) = Ok u).
Proof.
  unfold handled. destruct (stdout log (error_line site e)) as [u|e']; eauto.
Qed.

Lemma outcome_some found log url site r log' :
  scraper_outcome found log url site = (Ok (Some r), log') ->
  exists page, fetch log url = Ok page /\ source_result (found page) = Some r.
Proof.
  unfold scraper_outcome, handled. destruct (fetch log url) as [page|e].
  - intros [= Hr _]. eauto.
  - destruct (stdout _ _); discriminate.
Qed.

(* --------------------------------------------------------------- *)
(** *** Strings and lists *)

Lemma string_app_assoc (a b c : string) :
  ((a ++ b) ++ c)%string = (a ++ b ++ c)%string.
Proof. induction a as [|x a IH]; cbn; congruence. Qed.

Lemma string_app_nil (s : string) : (s ++ "")%string = s.
Proof. induction s as [|c s IH]; cbn; congruence. Qed.

Lemma prefix_append (x s : string) : prefix x (x ++ s) = true.
Proof.
  induction x as [|c x IH]; simpl.
  - destruct s; reflexivity.
  - destruct (ascii_dec c c); [exact IH | congruence].
Qed.

Lemma contains_here (x s : string) : Str.contains x (x ++ s) = true.
Proof.
  assert (Hprefix : forall t, prefix x t = true -> Str.contains x t = true).
  { intros t Ht. destruct t; cbn [Str.contains]; rewrite Ht; reflexivity. }
  apply Hprefix, prefix_append.
Qed.

Lemma contains_later (x p s : string) :
  Str.contains x s = true -> Str.contains x (p ++ s) = true.
Proof.
  intros H. induction p as [|c p IH]; simpl; [exact H|].
  rewrite IH. apply orb_true_r.
Qed.


Lemma filter_twice {A} (f g : A -> bool) (l : list A) :
  filter f (filter g l) = filter (fun x => g x && f x) l.
Proof.
  induction l as [|a l IH]; simpl; [reflexivity|].
  destruct (g a); simpl; [destruct (f a)|]; rewrite IH; reflexivity.
Qed.

Lemma existsb_snoc (y x : string) (keys : list string) :
  existsb (String.eqb y) (keys ++ [x])
  = existsb (String.eqb y) keys || String.eqb y x.
Proof. rewrite existsb_app. simpl. rewrite orb_false_r. reflexivity. Qed.

(** Running the dict of [fromkeys] from the keys it already holds. *)
Lemma fromkeys_from (l keys : list string) :
  fold_left
    (fun keys k => if existsb (String.eqb k) keys then keys else keys ++ [k])
    l keys
  = keys ++ filter (fun y => negb (existsb (String.eqb y) keys)) (dedupe_first l).
Proof.
  revert keys. induction l as [|x l IH]; intros keys; simpl.
  - rewrite app_nil_r. reflexivity.
  - destruct (existsb (String.eqb x) keys) eqn:Hx; simpl.
    + rewrite IH, filter_twice. f_equal. apply filter_ext. intros y.
      destruct (String.eqb y x) eqn:Hyx; simpl; [|reflexivity].
      apply String.eqb_eq in Hyx. subst y. rewrite Hx. reflexivity.
    + rewrite IH, <- app_assoc. simpl. do 2 f_equal.
      rewrite filter_twice. apply filter_ext. intros y.
      rewrite existsb_snoc, negb_orb. apply andb_comm.
Qed.

Lemma fromkeys_dedupe_first (l : list string) : fromkeys l = dedupe_first l.
Proof.
  unfold fromkeys. rewrite fromkeys_from. simpl.
  induction (dedupe_first l) as [|a d IH]; simpl; congruence.
Qed.

Lemma dedupe_first_In (l : list string) (x : string) :
  In x (dedupe_first l) <-> In x l.
Proof.
  induction l as [|a l IH]; cbn; [reflexivity|].
  rewrite filter_In, IH, negb_true_iff, String.eqb_neq.
  destruct (string_dec a x) as [->|Hne]; [tauto|].
  split; [tauto|]. intros [Heq|Hin]; [tauto|]. right. split; congruence.
Qed.

Lemma dedupe_first_NoDup (l : list string) : NoDup (dedupe_first l).
Proof.
  induction l as [|a l IH]; cbn; constructor.
  - rewrite filter_In, String.eqb_refl. intros [_ Hfalse]. discriminate.
  - apply NoDup_filter. exact IH.
Qed.

Lemma merged_lists y g f :
  merged y g f
  = (firstn 3 (dedupe_first (drivers_of y ++ drivers_of g ++ drivers_of f)),
     firstn 5 (dedupe_first (sources_of y ++ sources_of g ++ sources_of f))).
Proof.
  unfold merged, dedupe_and_limit. rewrite !fromkeys_dedupe_first.
  destruct y, g, f; simpl; rewrite ?app_nil_r, <- ?app_assoc; reflexivity.
Qed.

Lemma merged_bounds y g f :
  List.length (fst (merged y g f)) <= 3
  /\ List.length (snd (merged y g f)) <= 5.
Proof.
  unfold merged, dedupe_and_limit. cbn [fst snd].
  split; apply firstn_le_length.
Qed.

(* --------------------------------------------------------------- *)
(** *** The scrapers *)

Lemma source_result_none acc : fst acc = [] -> source_result acc = None.
Proof. unfold source_result. intros ->. reflexivity. Qed.

Lemma scraper_degrades call url site found :
  (forall log, call log = scraper_outcome found log url site) ->
  degrades call url site found.
Proof.
  intros Hrun log. unfold no_result. rewrite Hrun.
  unfold scraper_outcome, handled, fetch.
  split; [|split; [|split]].
  - intros e -> ->. eauto.
  - intros content e -> -> ->. eauto.
  - intros content page -> -> Hnone. rewrite source_result_none by exact Hnone.
    eauto.
  - intros e' log'.
    destruct (network log url) as [content|e].
    + destruct (BeautifulSoup content) as [page|e]; [discriminate|].
      destruct (stdout _ _) eqn:Hprint; [discriminate|].
      intros [= <- _]. eauto.
    + destruct (stdout _ _) eqn:Hprint; [discriminate|].
      intros [= <- _]. eauto.
Qed.


(** ** C7 *)


(* --------------------------------------------------------------- *)
(** *** The aggregator *)

Lemma fallback_shape symbol name change_percent log acc log' :
  fallback symbol name change_percent log = (Ok acc, log') ->
  log' = log /\ List.length (fst acc) = 3 /\ List.length (snd acc) = 2.
Proof.
  unfold fallback. run.
  destruct (py_gt0 change_percent); [|discriminate].
  destruct (py_abs change_percent) as [magnitude|]; [|discriminate].
  destruct (Fmt.format_2f magnitude); [|discriminate].
  destruct (py_replace symbol "^" ""); [|discriminate].
  intros [= <- <-]. auto.
Qed.

Lemma fallback_raises symbol name change_percent log e log' :
  fallback symbol name change_percent log = (Raise e, log') -> log' = log.
Proof.
  unfold fallback. run.
  destruct (py_gt0 change_percent); [|congruence].
  destruct (py_abs change_percent) as [magnitude|]; [|congruence].
  destruct (Fmt.format_2f magnitude); [|congruence].
  destruct (py_replace symbol "^" ""); congruence.
Qed.

Lemma fallback_ok s name change_percent positive magnitude amount log :
  py_gt0 change_percent = Ok positive ->
  py_abs change_percent = Ok magnitude ->
  Fmt.format_2f magnitude = Ok amount ->
  fallback (VStr s) name change_percent log
  = (Ok ([ (py_str name ++ " "
            ++ (if positive then "increased" else "decreased")
            ++ " by " ++ amount ++ "% during this period.")%string;
           "Check financial news sources for detailed analysis of market conditions.";
           "Consider broader market trends and sector-specific factors." ],
         [ ("Yahoo Finance - https://finance.yahoo.com/quote/" ++ s)%string;
           ("Google Finance - https://www.google.com/finance/quote/"
            ++ Str.replace "^" "" s ++ ":INDEXSP")%string ]),
     log).
Proof.
  intros Hgt Habs Hfmt. unfold fallback. run.
  rewrite Hgt, Habs, Hfmt. reflexivity.
Qed.

(** The aggregation once the three scrapers have answered. *)
Lemma aggregate_run symbol name change_percent log y g f log1 log2 log3 :
  scrape_yahoo_finance_news symbol name log = (Ok y, log1) ->
  scrape_google_news name change_percent log1 = (Ok g, log2) ->
  scrape_finviz_news symbol name log2 = (Ok f, log3) ->
  aggregate symbol name change_percent log
  = match fst (merged y g f) with
    | [] =>
        match fallback symbol name change_percent log3 with
        | (Ok acc, log') =>
            (Ok {| drivers := fst acc; sources := snd acc;
                   method := "free_scraping" |}, log')
        | (Raise e, log') => (Raise e, log')
        end
    | _ :: _ =>
        (Ok {| drivers := fst (merged y g f); sources := snd (merged y g f);
               method := "free_scraping" |}, log3)
    end.
Proof.
  intros Hy Hg Hf. unfold aggregate, bind at 1 2 3.
  rewrite Hy, Hg, Hf. fold (merged y g f).
  unfold bind, ret.
  destruct (merged y g f) as [[|d ds] ss]; reflexivity.
Qed.

Lemma analysis_run symbol name change_percent start_date end_date log :
  get_free_news_analysis symbol name change_percent start_date end_date log
  = match aggregate symbol name change_percent log with
    | (Ok a, log') => (Ok a, log')
    | (Raise e, log') => (Ok (error_result e), log')
    end.
Proof. reflexivity. Qed.

Lemma analysis_after_scrapers symbol name change_percent start_date end_date
    log y g f log1 log2 log3 :
  scrape_yahoo_finance_news symbol name log = (Ok y, log1) ->
  scrape_google_news name change_percent log1 = (Ok g, log2) ->
  scrape_finviz_news symbol name log2 = (Ok f, log3) ->
  exists a,
    get_free_news_analysis symbol name change_percent start_date end_date log
    = (Ok a, log3)
    /\ analysis_shape y g f a.
Proof.
  intros Hy Hg Hf. rewrite analysis_run.
  rewrite (aggregate_run _ _ _ _ _ _ _ _ _ _ Hy Hg Hf).
  destruct (fst (merged y g f)) eqn:Hmerged.
  - destruct (fallback symbol name change_percent log3) as [[acc|e] log'] eqn:Hfb.
    + apply fallback_shape in Hfb. destruct Hfb as (-> & Hd & Hs).
      eexists. split; [reflexivity|].
      destruct acc as [ds ss]. simpl in *.
      destruct ds as [|d1 [|d2 [|d3 [|]]]]; try discriminate.
      destruct ss as [|s1 [|s2 [|]]]; try discriminate.
      constructor. exact Hmerged.
    + apply fallback_raises in Hfb. subst log'.
      eexists. split; [reflexivity | constructor; exact Hmerged].
  - eexists. split; [reflexivity|]. rewrite <- Hmerged.
    constructor. congruence.
Qed.

(** An analysis is the "error" result of an exception, or what the
    aggregation built from the answers of the three scrapers. *)
Lemma analysis_total symbol name change_percent start_date end_date log :
  exists a log',
    get_free_news_analysis symbol name change_percent start_date end_date log
    = (Ok a, log')
    /\ ((exists e, a = error_result e)
        \/ exists y g f log1 log2,
             scrape_yahoo_finance_news symbol name log = (Ok y, log1)
             /\ scrape_google_news name change_percent log1 = (Ok g, log2)
             /\ scrape_finviz_news symbol name log2 = (Ok f, log')
             /\ analysis_shape y g f a).
Proof.
  destruct (scrape_yahoo_finance_news symbol name log) as [[y|e] log1] eqn:Hy.
  2: { exists (error_result e), log1. split; [|eauto].
       unfold get_free_news_analysis, try_except, aggregate, bind.
       rewrite Hy. reflexivity. }
  destruct (scrape_google_news name change_percent log1) as [[g|e] log2] eqn:Hg.
  2: { exists (error_result e), log2. split; [|eauto].
       unfold get_free_news_analysis, try_except, aggregate, bind.
       rewrite Hy, Hg. reflexivity. }
  destruct (scrape_finviz_news symbol name log2) as [[f|e] log3] eqn:Hf.
  2: { exists (error_result e), log3. split; [|eauto].
       unfold get_free_news_analysis, try_except, aggregate, bind.
       rewrite Hy, Hg, Hf. reflexivity. }
  destruct (analysis_after_scrapers symbol name change_percent start_date
              end_date log y g f log1 log2 log3 Hy Hg Hf) as (a & Ha & Hshape).
  exists a, log3. split; [exact Ha|]. right. exists y, g, f, log1, log2. auto.
Qed.

(** ** C2 *)

(** C2 (as amended). When the three scrapers return "no result" for an
    instrument whose symbol is a string and whose changePercent is a
    number that [:.2f] can format, the aggregator returns the fallback:
    three drivers, the first of which contains the name, "increased" when
    changePercent > 0 and "decreased" otherwise, and the formatted
    absolute value; two sources; method "free_scraping". *)
Theorem fallback_when_nothing_scraped
    (symbol : string) (name change_percent start_date end_date : pyval)
    (positive : bool) (magnitude : pynum) (amount : string)
    (log log1 log2 log3 : list event) :
  scrape_yahoo_finance_news (VStr symbol) name log = (Ok None, log1) ->
  scrape_google_news name change_percent log1 = (Ok None, log2) ->
  scrape_finviz_news (VStr symbol) name log2 = (Ok None, log3) ->
  py_gt0 change_percent = Ok positive ->
  py_abs change_percent = Ok magnitude ->
  Fmt.format_2f magnitude = Ok amount ->
  exists sentence advice trends source1 source2,
    get_free_news_analysis (VStr symbol) name change_percent
      start_date end_date log
    = (Ok {| drivers := [sentence; advice; trends];
             sources := [source1; source2];
             method := "free_scraping" |}, log3)
    /\ sentence
       = (py_str name ++ " " ++ (if positive then "increased" else "decreased")
          ++ " by " ++ amount ++ "% during this period.")%string
    /\ Str.contains (py_str name) sentence = true
    /\ Str.contains (if positive then "increased" else "decreased") sentence
       = true
    /\ Str.contains amount sentence = true.
Proof.
  intros Hy Hg Hf Hgt Habs Hfmt.
  rewrite analysis_run, (aggregate_run _ _ _ _ _ _ _ _ _ _ Hy Hg Hf).
  cbn [merged extend dedupe_and_limit fromkeys fold_left firstn fst snd].
  rewrite (fallback_ok _ _ _ _ _ _ _ Hgt Habs Hfmt).
  do 5 eexists. split; [reflexivity|]. split; [reflexivity|].
  split; [apply contains_here|].
  split.
  - do 2 apply contains_later. apply contains_here.
  - do 4 apply contains_later. apply contains_here.
Qed.

(** ** C3 *)

(** C3. The merge step removes duplicates by string equality, keeping the
    first occurrence in place (the same strings, each once; [A, B, A, C]
    becomes [A, B, C]), and keeps the first 3 drivers; it does the same
    for the sources and keeps the first 5.  Scraped headlines reach the
    result through this step, and every AnalysisResult has at most 3
    drivers and at most 5 sources. *)
Theorem merge_dedupes_and_truncates :
  (forall l, fromkeys l = dedupe_first l)
  /\ (forall l, NoDup (fromkeys l) /\ forall x, In x (fromkeys l) <-> In x l)
  /\ fromkeys ["A"; "B"; "A"; "C"] = ["A"; "B"; "C"]
  /\ (forall yahoo_news google_news finviz_news,
         dedupe_and_limit
           (extend (extend (extend ([], []) yahoo_news) google_news)
                   finviz_news)
         = (firstn 3 (dedupe_first (drivers_of yahoo_news
                                    ++ drivers_of google_news
                                    ++ drivers_of finviz_news)),
            firstn 5 (dedupe_first (sources_of yahoo_news
                                    ++ sources_of google_news
                                    ++ sources_of finviz_news))))
  /\ (forall symbol name change_percent start_date end_date
             log log1 log2 log3 yahoo_news google_news finviz_news,
         scrape_yahoo_finance_news symbol name log = (Ok yahoo_news, log1) ->
         scrape_google_news name change_percent log1 = (Ok google_news, log2) ->
         scrape_finviz_news symbol name log2 = (Ok finviz_news, log3) ->
         dedupe_first (drivers_of yahoo_news ++ drivers_of google_news
                       ++ drivers_of finviz_news) <> [] ->
         get_free_news_analysis symbol name change_percent
           start_date end_date log
         = (Ok {| drivers :=
                    firstn 3 (dedupe_first (drivers_of yahoo_news
                                            ++ drivers_of google_news
                                            ++ drivers_of finviz_news));
                  sources :=
                    firstn 5 (dedupe_first (sources_of yahoo_news
                                            ++ sources_of google_news
                                            ++ sources_of finviz_news));
                  method := "free_scraping" |}, log3))
  /\ (forall symbol name change_percent start_date end_date log,
         exists a log',
           get_free_news_analysis symbol name change_percent
             start_date end_date log = (Ok a, log')
           /\ List.length (drivers a) <= 3
           /\ List.length (sources a) <= 5).
Proof.
  split; [exact fromkeys_dedupe_first|].
  split.
  { intros l. rewrite fromkeys_dedupe_first.
    split; [apply dedupe_first_NoDup | intros x; apply dedupe_first_In]. }
  split; [reflexivity|].
  split; [exact merged_lists|].
  split.
  - intros symbol name change_percent start_date end_date
      log log1 log2 log3 y g f Hy Hg Hf Hsome.
    rewrite analysis_run, (aggregate_run _ _ _ _ _ _ _ _ _ _ Hy Hg Hf).
    rewrite merged_lists. cbn [fst snd].
    destruct (dedupe_first (drivers_of y ++ drivers_of g ++ drivers_of f))
      as [|d ds]; [congruence | reflexivity].
  - intros symbol name change_percent start_date end_date log.
    destruct (analysis_total symbol name change_percent start_date end_date log)
      as (a & log' & Ha & [(e & ->) | (y & g & f & log1 & log2 & _ & _ & _ & Hshape)]).
    + exists (error_result e), log'. split; [exact Ha|]. cbn. lia.
    + exists a, log'. split; [exact Ha|].
      destruct Hshape; cbn [drivers sources error_result List.length];
        [lia | apply merged_bounds | lia].
Qed.

(** ** C4 *)

(** C4 (as amended). Every AnalysisResult has at least one driver, and
    its method is "error" or "free_scraping".  Its sources are empty when
    its method is "error".  When its method is "free_scraping" the three
    scrapers have answered: if they scraped no headline it is the fallback,
    with three drivers and exactly two sources; otherwise its drivers are
    the first three distinct headlines and its sources the first five
    distinct citations the scrapers returned, which are those of the
    headlines that carried a link, and there may be none. *)
Theorem analysis_drivers_nonempty
    (symbol name change_percent start_date end_date : pyval)
    (log : list event) :
  exists a log',
    get_free_news_analysis symbol name change_percent start_date end_date log
    = (Ok a, log')
    /\ drivers a <> []
    /\ (method a = "error" \/ method a = "free_scraping")
    /\ (method a = "error" -> sources a = [])
    /\ (method a = "free_scraping" ->
        exists yahoo_news google_news finviz_news log1 log2,
          scrape_yahoo_finance_news symbol name log = (Ok yahoo_news, log1)
          /\ scrape_google_news name change_percent log1
             = (Ok google_news, log2)
          /\ scrape_finviz_news symbol name log2 = (Ok finviz_news, log')
          /\ (drivers_of yahoo_news ++ drivers_of google_news
              ++ drivers_of finviz_news = [] ->
              List.length (drivers a) = 3 /\ List.length (sources a) = 2)
          /\ (drivers_of yahoo_news ++ drivers_of google_news
              ++ drivers_of finviz_news <> [] ->
              drivers a
              = firstn 3 (dedupe_first (drivers_of yahoo_news
                                        ++ drivers_of google_news
                                        ++ drivers_of finviz_news))
              /\ sources a
                 = firstn 5 (dedupe_first (sources_of yahoo_news
                                           ++ sources_of google_news
                                           ++ sources_of finviz_news)))).
Proof.
  destruct (analysis_total symbol name change_percent start_date end_date log)
    as (a & log' & Ha & [(e & ->) | (y & g & f & log1 & log2 & Hy & Hg & Hf & Hshape)]).
  { exists (error_result e), log'. split; [exact Ha|].
    cbn [drivers sources method error_result].
    split; [discriminate|]. split; [left; reflexivity|].
    split; [reflexivity | discriminate]. }
  exists a, log'. split; [exact Ha|].
  assert (Hempty : fst (merged y g f) = []
                   <-> drivers_of y ++ drivers_of g ++ drivers_of f = []).
  { rewrite merged_lists. cbn [fst].
    destruct (drivers_of y ++ drivers_of g ++ drivers_of f);
      [split; reflexivity | split; discriminate]. }
  destruct Hshape as [e Hnone | Hsome | d1 d2 d3 s1 s2 Hnone];
    cbn [drivers sources method error_result].
  - split; [discriminate|]. split; [left; reflexivity|].
    split; [reflexivity | discriminate].
  - split; [exact Hsome|]. split; [right; reflexivity|]. split; [discriminate|].
    intros _. exists y, g, f, log1, log2.
    split; [exact Hy|]. split; [exact Hg|]. split; [exact Hf|]. split.
    + intros Hnone. apply Hempty in Hnone. contradiction.
    + intros _. rewrite merged_lists. auto.
  - split; [discriminate|]. split; [right; reflexivity|].
    split; [discriminate|].
    intros _. exists y, g, f, log1, log2.
    split; [exact Hy|]. split; [exact Hg|]. split; [exact Hf|]. split.
    + auto.
    + intros Hsome. apply Hempty in Hnone. contradiction.
Qed.

(* --------------------------------------------------------------- *)
(** *** The batch *)

Lemma carries_keys_getitem x :
  carries_keys x = true ->
  py_getitem x "symbol" = Ok (field "symbol" x)
  /\ py_getitem x "name" = Ok (field "name" x)
  /\ py_getitem x "changePercent" = Ok (field "changePercent" x).
Proof.
  destruct x as [| | | | | |d]; try discriminate. unfold carries_keys.
  cbn [py_getitem field].
  destruct (dict_lookup "symbol" d); [|discriminate].
  destruct (dict_lookup "name" d); [|discriminate].
  destruct (dict_lookup "changePercent" d); [|discriminate]. auto.
Qed.

(** One turn of the loop for an instrument that carries its keys. *)
Lemma analyze_symbols_step start_date end_date x rest analyses log a log1 :
  carries_keys x = true ->
  get_free_news_analysis (field "symbol" x) (field "name" x)
    (field "changePercent" x) start_date end_date log = (Ok a, log1) ->
  analyze_symbols start_date end_date (x :: rest) analyses log
  = analyze_symbols start_date end_date rest
      (analyses ++ [analysis_item (field "symbol" x) (field "name" x)
                      (field "changePercent" x) a])
      (log1 ++ [Sleep 1]).
Proof.
  intros Hkeys Ha. apply carries_keys_getitem in Hkeys.
  destruct Hkeys as (Hs & Hn & Hc).
  cbn [analyze_symbols]. unfold bind at 1 2 3 4, lift.
  rewrite Hs, Hn, Hc, Ha. reflexivity.
Qed.

(** The dates are handed down and never looked at. *)
Lemma analyze_symbols_dates start_date end_date start_date' end_date'
    symbols analyses log :
  analyze_symbols start_date end_date symbols analyses log
  = analyze_symbols start_date' end_date' symbols analyses log.
Proof.
  revert analyses log. induction symbols as [|x rest IH]; intros analyses log.
  - reflexivity.
  - cbn [analyze_symbols]. unfold bind, lift.
    destruct (py_getitem x "symbol"); [|reflexivity].
    destruct (py_getitem x "name"); [|reflexivity].
    destruct (py_getitem x "changePercent"); [|reflexivity].
    rewrite !analysis_run.
    destruct (aggregate a a0 a1 log) as [[r|e] log1]; unfold sleep, emit;
      apply IH.
Qed.

(** The loop only appends to the list it was given. *)
Lemma analyze_symbols_from start_date end_date symbols analyses log :
  analyze_symbols start_date end_date symbols analyses log
  = match analyze_symbols start_date end_date symbols [] log with
    | (Ok items, log') => (Ok (analyses ++ items), log')
    | (Raise e, log') => (Raise e, log')
    end.
Proof.
  revert analyses log. induction symbols as [|x rest IH]; intros analyses log.
  - cbn. rewrite app_nil_r. reflexivity.
  - cbn [analyze_symbols]. unfold bind, lift.
    destruct (py_getitem x "symbol"); [|reflexivity].
    destruct (py_getitem x "name"); [|reflexivity].
    destruct (py_getitem x "changePercent"); [|reflexivity].
    rewrite !analysis_run.
    destruct (aggregate a a0 a1 log) as [[r|e] log1]; unfold sleep, emit;
      rewrite IH; symmetry; rewrite IH; cbn [app];
      match goal with
      | |- context [analyze_symbols ?sd ?ed ?l [] ?lg] =>
          destruct (analyze_symbols sd ed l [] lg) as [[items|e'] log2]
      end;
      rewrite <- ?app_assoc; reflexivity.
Qed.

(** Two stretches of the list are processed one after the other. *)
Lemma analyze_symbols_app start_date end_date before after analyses log :
  analyze_symbols start_date end_date (before ++ after) analyses log
  = match analyze_symbols start_date end_date before analyses log with
    | (Ok items, log') => analyze_symbols start_date end_date after items log'
    | (Raise e, log') => (Raise e, log')
    end.
Proof.
  revert analyses log. induction before as [|x rest IH]; intros analyses log.
  - reflexivity.
  - cbn [app analyze_symbols]. unfold bind, lift.
    destruct (py_getitem x "symbol"); [|reflexivity].
    destruct (py_getitem x "name"); [|reflexivity].
    destruct (py_getitem x "changePercent"); [|reflexivity].
    destruct (get_free_news_analysis a a0 a1 start_date end_date log)
      as [[r|e] log1]; [|reflexivity].
    unfold sleep, emit. apply IH.
Qed.

Lemma analysis_method symbol name change_percent start_date end_date log :
  exists a log',
    get_free_news_analysis symbol name change_percent start_date end_date log
    = (Ok a, log')
    /\ (method a = "free_scraping" \/ method a = "error").
Proof.
  destruct (analysis_total symbol name change_percent start_date end_date log)
    as (a & log' & Ha & [(e & ->) | (y & g & f & log1 & log2 & _ & _ & _ & Hshape)]).
  - exists (error_result e), log'. auto.
  - exists a, log'. split; [exact Ha|]. destruct Hshape; auto.
Qed.

(** Instruments that carry their keys are all answered, in order. *)
Lemma analyze_symbols_total start_date end_date symbols log :
  Forall (fun x => carries_keys x = true) symbols ->
  exists items log',
    analyze_symbols start_date end_date symbols [] log = (Ok items, log')
    /\ Forall2 answers symbols items.
Proof.
  intros Hall. revert log. induction Hall as [|x rest Hx Hrest IH]; intros log.
  - exists [], log. split; [reflexivity | constructor].
  - destruct (analysis_method (field "symbol" x) (field "name" x)
                (field "changePercent" x) start_date end_date log)
      as (a & log1 & Ha & Hmethod).
    rewrite (analyze_symbols_step _ _ _ _ _ _ _ _ Hx Ha), analyze_symbols_from.
    destruct (IH (log1 ++ [Sleep 1])) as (items & log' & Hrun & Hitems).
    rewrite Hrun. do 2 eexists. split; [reflexivity|].
    constructor; [|exact Hitems]. exists a. auto.
Qed.

(** The same, with every entry written out. *)
Lemma analyze_symbols_entries start_date end_date symbols log :
  Forall (fun x => carries_keys x = true) symbols ->
  exists items log',
    analyze_symbols start_date end_date symbols [] log = (Ok items, log')
    /\ Forall2 (entry_of start_date end_date) symbols items.
Proof.
  intros Hall. revert log. induction Hall as [|x rest Hx Hrest IH]; intros log.
  - exists [], log. split; [reflexivity | constructor].
  - destruct (analysis_method (field "symbol" x) (field "name" x)
                (field "changePercent" x) start_date end_date log)
      as (a & log1 & Ha & _).
    rewrite (analyze_symbols_step _ _ _ _ _ _ _ _ Hx Ha), analyze_symbols_from.
    destruct (IH (log1 ++ [Sleep 1])) as (items & log' & Hrun & Hitems).
    rewrite Hrun. do 2 eexists. split; [reflexivity|].
    constructor; [|exact Hitems]. exists a, log, log1. split; [exact Ha|].
    reflexivity.
Qed.

Lemma Forall2_nth_error_answers {A B} (R : A -> B -> Prop) l1 l2 :
  Forall2 R l1 l2 ->
  forall i x, nth_error l1 i = Some x ->
              exists y, nth_error l2 i = Some y /\ R x y.
Proof.
  induction 1 as [|a b l1 l2 Hab _ IH]; intros [|i] x Hx;
    try discriminate; cbn in *.
  - injection Hx as <-. eauto.
  - eauto.
Qed.

(** The handler once [symbols] has been read and found non-empty. *)
Lemma analyze_market_run d symbols log :
  dict_lookup "symbols" d = Some (VList symbols) ->
  symbols <> [] ->
  analyze_market (Ok (VDict d)) log
  = match analyze_symbols (field "startDate" (VDict d))
            (field "endDate" (VDict d)) symbols [] log with
    | (Ok analyses, log') =>
        (Ok (VDict [("analyses", VList analyses)], 200), log')
    | (Raise e, log') =>
        (Ok (VDict [("error", VStr (str_exn e))], 500), log')
    end.
Proof.
  intros Hsymbols Hsome. unfold analyze_market. run.
  cbn [py_get field]. rewrite Hsymbols.
  destruct symbols as [|x rest]; [congruence|]. cbn [truthy negb py_iter].
  match goal with
  | |- context [analyze_symbols ?sd ?ed ?l [] ?lg] =>
      destruct (analyze_symbols sd ed l [] lg) as [[items|e] log']
  end; reflexivity.
Qed.

(** ** C1 *)

(** C1. For a request whose symbols list has N >= 1 elements, each
    carrying symbol, name and changePercent, /analyze answers 200 with an
    analyses array of exactly N items, and item i is the entry of input
    instrument i: a dict whose symbol, name and changePercent are the
    values of that instrument and whose analysis holds the drivers, sources
    and method that the aggregator returned for them. *)
Theorem one_analysis_per_instrument
    (d : list (string * pyval)) (symbols : list pyval) (log : list event) :
  dict_lookup "symbols" d = Some (VList symbols) ->
  1 <= List.length symbols ->
  Forall (fun x => carries_keys x = true) symbols ->
  exists analyses log',
    analyze_market (Ok (VDict d)) log
    = (Ok (VDict [("analyses", VList analyses)], 200), log')
    /\ List.length analyses = List.length symbols
    /\ (forall i symbol_data,
           nth_error symbols i = Some symbol_data ->
           exists item,
             nth_error analyses i = Some item
             /\ py_getitem item "symbol" = Ok (field "symbol" symbol_data)
             /\ py_getitem item "name" = Ok (field "name" symbol_data)
             /\ py_getitem item "changePercent"
                = Ok (field "changePercent" symbol_data)
             /\ entry_of (field "startDate" (VDict d))
                  (field "endDate" (VDict d)) symbol_data item).
Proof.
  intros Hsymbols Hlen Hkeys.
  assert (Hsome : symbols <> []) by (destruct symbols; cbn in Hlen; [lia | discriminate]).
  rewrite (analyze_market_run _ _ _ Hsymbols Hsome).
  destruct (analyze_symbols_entries (field "startDate" (VDict d))
              (field "endDate" (VDict d)) symbols log Hkeys)
    as (items & log' & Hrun & Hitems).
  rewrite Hrun. exists items, log'. split; [reflexivity|]. split.
  - symmetry. eapply Forall2_length. exact Hitems.
  - intros i symbol_data Hi.
    destruct (Forall2_nth_error_answers _ _ _ Hitems i symbol_data Hi)
      as (item & Hitem & Hentry).
    exists item. split; [exact Hitem|].
    assert (Hentry' := Hentry).
    destruct Hentry' as (a & log1 & log2 & _ & ->).
    split; [reflexivity|]. split; [reflexivity|]. split; [reflexivity|].
    exact Hentry.
Qed.

(** ** C5 *)

(** C5. When the body of the request has no symbols field, or an empty
    array for it, /analyze answers 400 with
    [{"error": "No symbols provided"}] whatever the other fields are, and
    nothing is added to the log: no page is requested. *)
Theorem no_symbols_is_a_client_error
    (d : list (string * pyval)) (log : list event) :
  dict_lookup "symbols" d = None
  \/ dict_lookup "symbols" d = Some (VList []) ->
  analyze_market (Ok (VDict d)) log
  = (Ok (VDict [("error", VStr "No symbols provided")], 400), log).
Proof.
  intros [Hmissing | Hempty]; unfold analyze_market; run; cbn [py_get];
    [rewrite Hmissing | rewrite Hempty]; reflexivity.
Qed.

(** ** C6 *)


(** ** C8 *)

(** C8 (as amended). Two requests that differ only in startDate and
    endDate get, in the same world, the same pages requested and the same
    response: the date range has no effect at all, and the response does
    not carry it. *)
Theorem dates_do_not_matter
    (d1 d2 : list (string * pyval)) (log : list event) :
  (forall key,
      key <> "startDate" -> key <> "endDate" ->
      dict_lookup key d1 = dict_lookup key d2) ->
  analyze_market (Ok (VDict d1)) log = analyze_market (Ok (VDict d2)) log.
Proof.
  intros Hsame.
  assert (Hsymbols : dict_lookup "symbols" d1 = dict_lookup "symbols" d2)
    by (apply Hsame; discriminate).
  unfold analyze_market. run. cbn [py_get]. rewrite Hsymbols.
  destruct (negb (truthy _)); [reflexivity|].
  destruct (py_iter _) as [items|e]; [|reflexivity].
  match goal with
  | |- context [analyze_symbols ?sd ?ed items [] log] =>
      rewrite (analyze_symbols_dates sd ed
                 match dict_lookup "startDate" d2 with
                 | Some x => x | None => VNone end
                 match dict_lookup "endDate" d2 with
                 | Some x => x | None => VNone end)
  end.
  reflexivity.
Qed.

(* --------------------------------------------------------------- *)
(** *** Elements without their keys *)

Lemma getitem_carries_keys x s n c :
  py_getitem x "symbol" = Ok s ->
  py_getitem x "name" = Ok n ->
  py_getitem x "changePercent" = Ok c ->
  carries_keys x = true.
Proof.
  destruct x as [| | | | | |d]; try discriminate. cbn [py_getitem carries_keys].
  destruct (dict_lookup "symbol" d); [|discriminate].
  destruct (dict_lookup "name" d); [|discriminate].
  destruct (dict_lookup "changePercent" d); [|discriminate]. reflexivity.
Qed.

Lemma analyze_symbols_fails start_date end_date symbols analyses log :
  Exists (fun x => carries_keys x = false) symbols ->
  exists e log',
    analyze_symbols start_date end_date symbols analyses log = (Raise e, log').
Proof.
  intros Hbad. revert analyses log.
  induction Hbad as [x rest Hx | x rest _ IH]; intros analyses log.
  - cbn [analyze_symbols]. unfold bind, lift.
    destruct (py_getitem x "symbol") eqn:Hs; [|eauto].
    destruct (py_getitem x "name") eqn:Hn; [|eauto].
    destruct (py_getitem x "changePercent") eqn:Hc; [|eauto].
    rewrite (getitem_carries_keys _ _ _ _ Hs Hn Hc) in Hx. discriminate.
  - cbn [analyze_symbols]. unfold bind, lift.
    destruct (py_getitem x "symbol"); [|eauto].
    destruct (py_getitem x "name"); [|eauto].
    destruct (py_getitem x "changePercent"); [|eauto].
    rewrite analysis_run.
    destruct (aggregate a a0 a1 log) as [[r|e] log1]; unfold sleep, emit;
      apply IH.
Qed.

Lemma analyze_symbols_missing_key start_date end_date bad key after analyses log :
  first_missing_key bad = Some key ->
  analyze_symbols start_date end_date (VDict bad :: after) analyses log
  = (Raise (KeyError key), log).
Proof.
  unfold first_missing_key. intros Hkey.
  cbn [analyze_symbols py_getitem]. unfold bind, lift.
  destruct (dict_lookup "symbol" bad); [|injection Hkey as <-; reflexivity].
  destruct (dict_lookup "name" bad); [|injection Hkey as <-; reflexivity].
  destruct (dict_lookup "changePercent" bad);
    [discriminate | injection Hkey as <-; reflexivity].
Qed.

(** ** C9 *)

(** C9. When an element of the symbols list lacks one of the keys
    symbol, name and changePercent, /analyze answers 500 with the text of
    the exception in the error field.  When the elements before it carry
    their keys, they were analysed (their pages were requested), the
    text is the name of the first missing key in quotes, and the response
    holds nothing of what was computed for them. *)
Theorem missing_key_fails_the_request
    (d : list (string * pyval)) (symbols : list pyval) (log : list event) :
  dict_lookup "symbols" d = Some (VList symbols) ->
  Exists (fun x => carries_keys x = false) symbols ->
  (exists e log',
      analyze_market (Ok (VDict d)) log
      = (Ok (VDict [("error", VStr (str_exn e))], 500), log'))
  /\ (forall before bad after key,
         symbols = before ++ VDict bad :: after ->
         Forall (fun x => carries_keys x = true) before ->
         first_missing_key bad = Some key ->
         exists computed log',
           analyze_symbols (field "startDate" (VDict d))
             (field "endDate" (VDict d)) before [] log = (Ok computed, log')
           /\ Forall2 answers before computed
           /\ analyze_market (Ok (VDict d)) log
              = (Ok (VDict [("error", VStr ("'" ++ key ++ "'"))], 500), log')).
Proof.
  intros Hsymbols Hbad.
  assert (Hsome : symbols <> []) by (destruct Hbad; discriminate).
  rewrite (analyze_market_run _ _ _ Hsymbols Hsome). split.
  - destruct (analyze_symbols_fails (field "startDate" (VDict d))
                (field "endDate" (VDict d)) symbols [] log Hbad)
      as (e & log' & Hrun).
    rewrite Hrun. eauto.
  - intros before bad after key -> Hbefore Hkey.
    destruct (analyze_symbols_total (field "startDate" (VDict d))
                (field "endDate" (VDict d)) before log Hbefore)
      as (computed & log' & Hrun & Hitems).
    exists computed, log'. split; [exact Hrun|]. split; [exact Hitems|].
    rewrite analyze_symbols_app, Hrun.
    rewrite (analyze_symbols_missing_key _ _ _ _ _ _ _ Hkey). reflexivity.
Qed.

(* --------------------------------------------------------------- *)
(** *** Timestamps *)

Lemma digit_char_read (d : N) :
  (d < 10)%N ->
  Iso8601.is_digit (Fmt.digit_char d) = true
  /\ Iso8601.digit_val (Fmt.digit_char d) = d.
Proof.
  intros Hd.
  assert (Hcases : (d = 0 \/ d = 1 \/ d = 2 \/ d = 3 \/ d = 4 \/ d = 5
                    \/ d = 6 \/ d = 7 \/ d = 8 \/ d = 9)%N) by lia.
  repeat (destruct Hcases as [-> | Hcases]; [split; reflexivity|]).
  subst d. split; reflexivity.
Qed.

Lemma digits_fixed (k j : nat) (n acc : N) (rest : string) :
  Iso8601.digits (k + j) acc (Fmt.fixed_digits k n ++ rest)
  = Iso8601.digits j (acc * 10 ^ N.of_nat k + n mod 10 ^ N.of_nat k)%N rest.
Proof.
  revert j n acc rest. induction k as [|k IH]; intros j n acc rest.
  - cbn [Fmt.fixed_digits Nat.add append N.of_nat N.pow].
    rewrite N.mod_1_r, N.mul_1_r, N.add_0_r. reflexivity.
  - cbn [Fmt.fixed_digits]. rewrite string_app_assoc. cbn [append].
    replace (S k + j) with (k + S j) by lia. rewrite IH.
    cbn [Iso8601.digits].
    destruct (digit_char_read (n mod 10)) as (Hdigit & Hval).
    { apply N.mod_lt. discriminate. }
    rewrite Hdigit, Hval. f_equal.
    rewrite Nat2N.inj_succ, N.pow_succ_r', (N.Div0.mod_mul_r n 10). lia.
Qed.

Lemma zero_pad_fixed (k : nat) (n : N) :
  (n < 10 ^ N.of_nat k)%N -> Fmt.zero_pad k n = Fmt.fixed_digits k n.
Proof.
  intros Hn. unfold Fmt.zero_pad.
  apply N.ltb_lt in Hn. rewrite Hn. reflexivity.
Qed.

Lemma digits_zero_pad (k : nat) (n : N) (rest : string) :
  (n < 10 ^ N.of_nat k)%N ->
  Iso8601.digits k 0 (Fmt.zero_pad k n ++ rest) = Some (n, rest).
Proof.
  intros Hn. rewrite (zero_pad_fixed _ _ Hn).
  replace k with (k + 0) at 1 by lia. rewrite digits_fixed.
  cbn [Iso8601.digits]. rewrite N.mod_small by exact Hn. reflexivity.
Qed.

Lemma number_then_zero_pad (k : nat) (n : N) (sep : ascii) (rest : string) :
  (n < 10 ^ N.of_nat k)%N ->
  Iso8601.number_then k sep (Fmt.zero_pad k n ++ String sep rest)
  = Some (n, rest).
Proof.
  intros Hn. unfold Iso8601.number_then.
  rewrite (digits_zero_pad _ _ _ Hn), Ascii.eqb_refl. reflexivity.
Qed.

Lemma in_range_true (lo n hi : N) :
  (lo <= n <= hi)%N -> Iso8601.in_range lo n hi = true.
Proof.
  intros [Hlo Hhi]. unfold Iso8601.in_range.
  apply N.leb_le in Hlo, Hhi. rewrite Hlo, Hhi. reflexivity.
Qed.

(** What [isoformat] writes, the reader reads back. *)
Lemma parse_isoformat (t : datetime) :
  valid_datetime t -> Iso8601.parse (isoformat t) = Some t.
Proof.
  destruct t as [y mo d h mi sec us]. unfold valid_datetime, isoformat.
  cbn [year month day hour minute second microsecond].
  intros (Hy & Hmo & Hd & Hh & Hmi & Hsec & Hus).
  unfold Iso8601.parse. cbn [append].
  rewrite number_then_zero_pad by (cbn; lia).
  rewrite number_then_zero_pad by (cbn; lia).
  rewrite number_then_zero_pad by (cbn; lia).
  rewrite number_then_zero_pad by (cbn; lia).
  rewrite number_then_zero_pad by (cbn; lia).
  rewrite digits_zero_pad by (cbn; lia).
  rewrite !in_range_true by lia. cbn [andb].
  destruct (us =? 0)%N eqn:Hzero.
  - apply N.eqb_eq in Hzero. subst us. reflexivity.
  - cbn [append Iso8601.fraction]. rewrite Ascii.eqb_refl.
    rewrite <- (string_app_nil (Fmt.zero_pad 6 us)).
    rewrite digits_zero_pad by (cbn; lia). reflexivity.
Qed.

(** ** C10 *)

(** C10. GET /health answers 200 with status "healthy", method
    "free_scraping", the three source names and the [isoformat] of the
    clock, which reads back as an ISO-8601 date and time; the log is left
    as it was, so no page is requested. *)
Theorem health_check_is_static (log : list event) :
  valid_datetime (clock log) ->
  exists timestamp,
    health_check log
    = (Ok (VDict [ ("status", VStr "healthy");
                   ("method", VStr "free_scraping");
                   ("sources", VList [ VStr "Yahoo Finance";
                                       VStr "Google News";
                                       VStr "Finviz" ]);
                   ("timestamp", VStr timestamp) ], 200),
       log)
    /\ Iso8601.parse timestamp = Some (clock log).
Proof.
  intros Hvalid. exists (isoformat (clock log)).
  split; [reflexivity | apply parse_isoformat; exact Hvalid].
Qed.

(* --------------------------------------------------------------- *)
(** *** The handler as a whole *)

(** X1. /analyze never raises: whatever the body is, it answers 200 with
    an analyses array, or 400 with the fixed message and nothing requested,
    or 500 with the text of an exception. *)
Theorem analyze_market_always_answers
    (request_json : result pyval) (log : list event) :
  exists body status log',
    analyze_market request_json log = (Ok (body, status), log')
    /\ ((status = 200
         /\ exists analyses, body = VDict [("analyses", VList analyses)])
        \/ (status = 400
            /\ body = VDict [("error", VStr "No symbols provided")]
            /\ log' = log)
        \/ (status = 500
            /\ exists e, body = VDict [("error", VStr (str_exn e))])).
Proof.
  unfold analyze_market. run.
  destruct request_json as [data|e]; [|do 3 eexists; split; [reflexivity|]; eauto 6].
  destruct (py_get data "symbols" (VList [])) as [symbols|e];
    [|do 3 eexists; split; [reflexivity|]; eauto 6].
  destruct (py_get data "startDate" VNone) as [start_date|e];
    [|do 3 eexists; split; [reflexivity|]; eauto 6].
  destruct (py_get data "endDate" VNone) as [end_date|e];
    [|do 3 eexists; split; [reflexivity|]; eauto 6].
  destruct (negb (truthy symbols));
    [do 3 eexists; split; [reflexivity|]; auto|].
  destruct (py_iter symbols) as [items|e];
    [|do 3 eexists; split; [reflexivity|]; eauto 6].
  destruct (analyze_symbols start_date end_date items [] log) as [[analyses|e] log'];
    do 3 eexists; (split; [reflexivity|]); eauto 6.
Qed.

(** X2. A body that cannot be read, or that is not a JSON object, is a
    500 and not a 400, although it has no symbols either: the error is the
    text of the exception, and nothing is requested. *)
Theorem body_that_is_not_an_object (data : pyval) (log : list event) :
  is_dict data = false ->
  analyze_market (Ok data) log
  = (Ok (VDict [("error",
                 VStr ("'" ++ type_name data
                       ++ "' object has no attribute 'get'"))], 500), log)
  /\ forall e,
       analyze_market (Raise e) log
       = (Ok (VDict [("error", VStr (str_exn e))], 500), log).
Proof.
  intros Hdata. split; [|reflexivity].
  destruct data; try discriminate; reflexivity.
Qed.

(** X3. When symbols is something else than a list, no instrument is
    analysed and nothing is requested: a false value (null, false, 0, an
    empty string or object) is the 400, any other value a 500. *)
Theorem symbols_that_is_not_a_list
    (d : list (string * pyval)) (v : pyval) (log : list event) :
  dict_lookup "symbols" d = Some v ->
  is_list v = false ->
  exists body,
    analyze_market (Ok (VDict d)) log
    = (Ok (body, if truthy v then 500 else 400), log)
    /\ exists text, body = VDict [("error", VStr text)].
Proof.
  intros Hsymbols Hlist. unfold analyze_market. run.
  cbn [py_get]. rewrite Hsymbols.
  destruct v as [|b|z|f|s|l|items]; try discriminate; cbn [truthy].
  - eexists. split; [reflexivity | eauto].
  - destruct b; eexists; (split; [reflexivity | eauto]).
  - destruct (z =? 0)%Z; eexists; (split; [reflexivity | eauto]).
  - destruct f as [neg m e| |]; [destruct (m =? 0)%N| |];
      eexists; (split; [reflexivity | eauto]).
  - destruct s as [|c s]; eexists; (split; [reflexivity | eauto]).
  - destruct items as [|[k x] items]; eexists; (split; [reflexivity | eauto]).
Qed.

(* --------------------------------------------------------------- *)
(** *** What a scraper collects *)

Lemma lstrip_head (s : string) :
  match Str.lstrip s with
  | String c _ => Str.is_space c = false
  | EmptyString => True
  end.
Proof.
  induction s as [|c s IH]; cbn; [exact I|].
  destruct (Str.is_space c) eqn:Hc; [exact IH | exact Hc].
Qed.

Lemma lstrip_fixed (s : string) :
  match s with
  | String c _ => Str.is_space c = false
  | EmptyString => True
  end ->
  Str.lstrip s = s.
Proof. destruct s as [|c s]; cbn; [reflexivity|]. intros ->. reflexivity. Qed.

Lemma rstrip_head (c : ascii) (r : string) :
  Str.is_space c = false -> exists r', Str.rstrip (String c r) = String c r'.
Proof.
  intros Hc. cbn. rewrite Hc. destruct (Str.rstrip r); eauto.
Qed.

Lemma rstrip_twice (s : string) : Str.rstrip (Str.rstrip s) = Str.rstrip s.
Proof.
  induction s as [|c s IH]; [reflexivity|]. cbn [Str.rstrip].
  destruct (Str.rstrip s) as [|c' r'] eqn:Hr.
  - destruct (Str.is_space c) eqn:Hc; [reflexivity|]. cbn. rewrite Hc. reflexivity.
  - cbn [Str.rstrip]. cbn [Str.rstrip] in IH. rewrite IH. reflexivity.
Qed.

Lemma strip_twice (s : string) : Str.strip (Str.strip s) = Str.strip s.
Proof.
  unfold Str.strip. rewrite lstrip_fixed; [apply rstrip_twice|].
  pose proof (lstrip_head s) as Hhead.
  destruct (Str.lstrip s) as [|c r]; [exact I|].
  destruct (rstrip_head c r Hhead) as (r' & ->). exact Hhead.
Qed.

Lemma cites_more (titles more : list string) (source : string) :
  cites titles source -> cites (titles ++ more) source.
Proof.
  intros (title & link & Hin & Hlink & ->).
  exists title, link. rewrite in_app_iff. auto.
Qed.

Lemma collected_more (n m : nat) acc : n <= m -> collected n acc -> collected m acc.
Proof. unfold collected. intros Hnm (Hn & Hrest). split; [lia | exact Hrest]. Qed.

Lemma append_article_collected (n : nat) acc (text link : string) :
  collected n acc -> collected (S n) (append_article acc (Str.strip text) link).
Proof.
  destruct acc as [ds ss]. unfold append_article.
  destruct (Str.nonempty (Str.strip text)) eqn:Htitle;
    [|apply collected_more; lia].
  unfold collected. cbn [fst snd]. intros (Hn & Hss & Hds & Hcites).
  assert (Hmore : Forall (cites (ds ++ [Str.strip text])) ss).
  { eapply Forall_impl; [|exact Hcites]. intros source. apply cites_more. }
  rewrite length_app. cbn [List.length].
  split; [lia|]. split; [|split].
  - destruct (Str.nonempty link); [rewrite length_app; cbn [List.length]|]; lia.
  - apply Forall_app. split; [exact Hds|]. constructor; [|constructor].
    split; [exact Htitle | apply strip_twice].
  - destruct (Str.nonempty link) eqn:Hlink; [|exact Hmore].
    apply Forall_app. split; [exact Hmore|]. constructor; [|constructor].
    exists (Str.strip text), link. rewrite in_app_iff. cbn. auto.
Qed.

(** A loop whose turns either leave the lists alone or append one
    stripped title. *)
Lemma fold_collected {A} (step : list string * list string -> A -> list string * list string)
    (l : list A) :
  (forall acc x,
      step acc x = acc
      \/ exists text link, step acc x = append_article acc (Str.strip text) link) ->
  forall n acc, collected n acc -> collected (n + List.length l) (fold_left step l acc).
Proof.
  intros Hstep. induction l as [|x l IH]; intros n acc Hacc; cbn [fold_left List.length].
  - rewrite Nat.add_0_r. exact Hacc.
  - replace (n + S (List.length l)) with (S n + List.length l) by lia.
    apply IH. destruct (Hstep acc x) as [-> | (text & link & ->)].
    + apply collected_more with (n := n); [lia | exact Hacc].
    + apply append_article_collected. exact Hacc.
Qed.

Lemma collected_nothing : collected 0 ([], []).
Proof. unfold collected. cbn. repeat split; constructor. Qed.

Lemma first_three_collected {A}
    (step : list string * list string -> A -> list string * list string)
    (l : list A) :
  (forall acc x,
      step acc x = acc
      \/ exists text link, step acc x = append_article acc (Str.strip text) link) ->
  collected 3 (fold_left step (firstn 3 l) ([], [])).
Proof.
  intros Hstep.
  apply collected_more with (n := 0 + List.length (firstn 3 l)).
  - pose proof (firstn_le_length 3 l). lia.
  - apply fold_collected; [exact Hstep | exact collected_nothing].
Qed.

Lemma yahoo_found_collected page : collected 3 (yahoo_found page).
Proof.
  apply first_three_collected. intros acc x. right. unfold yahoo_article. eauto.
Qed.

Lemma google_found_collected page : collected 3 (google_found page).
Proof.
  apply first_three_collected. intros acc x. unfold google_article.
  destruct (article_a_JtKRv x); eauto.
Qed.

Lemma finviz_found_collected page : collected 3 (finviz_found page).
Proof.
  unfold finviz_found. destruct (find_table_news page) as [trs|].
  - apply first_three_collected. intros acc x. unfold finviz_item.
    destruct (tr_a x); eauto.
  - apply collected_more with (n := 0); [lia | exact collected_nothing].
Qed.

Lemma scraped_well_formed found log url site log' r :
  (forall p, collected 3 (found p)) ->
  scraper_outcome found log url site = (Ok (Some r), log') ->
  well_formed_result r.
Proof.
  intros Hfound Hrun. apply outcome_some in Hrun.
  destruct Hrun as (p & _ & Hr). revert Hr. unfold source_result.
  specialize (Hfound p). destruct (found p) as [ds ss]. cbn [fst snd].
  destruct ds as [|d ds]; [discriminate|]. intros [= <-].
  destruct Hfound as (Hn & Hss & Hds & Hcites). cbn [fst snd] in *.
  unfold well_formed_result. cbn [sr_drivers sr_sources].
  repeat split; auto. cbn. lia.
Qed.

(** X4. A result of a scraper has between one and three drivers and no
    more sources than drivers; each driver is a non-empty title without
    white space at its ends, and each source is the citation (the first 50
    characters of the title, "... - " and a non-empty link) of one of its
    drivers. *)
Theorem scraper_results_are_well_formed
    (symbol name change_percent : pyval) (log log' : list event)
    (r : SourceResult) :
  scrape_yahoo_finance_news symbol name log = (Ok (Some r), log')
  \/ scrape_google_news name change_percent log = (Ok (Some r), log')
  \/ scrape_finviz_news symbol name log = (Ok (Some r), log') ->
  well_formed_result r.
Proof.
  intros [Hrun | [Hrun | Hrun]].
  - rewrite scrape_yahoo_run in Hrun.
    exact (scraped_well_formed _ _ _ _ _ _ yahoo_found_collected Hrun).
  - rewrite scrape_google_run in Hrun.
    exact (scraped_well_formed _ _ _ _ _ _ google_found_collected Hrun).
  - rewrite scrape_finviz_run in Hrun.
    destruct (finviz_ticker symbol) as [ticker|e].
    + exact (scraped_well_formed _ _ _ _ _ _ finviz_found_collected Hrun).
    + destruct (handled_cases log "Finviz" e) as [(e' & Hh & _) | (Hh & _)];
        rewrite Hh in Hrun; discriminate.
Qed.

(* --------------------------------------------------------------- *)
(** *** What is requested, and when *)

Lemma gets_app (a b : list event) : gets (a ++ b) = gets a ++ gets b.
Proof.
  induction a as [|[url ua t|n|line] a IH]; cbn; [reflexivity| |exact IH|exact IH].
  rewrite IH. reflexivity.
Qed.

Lemma sleeps_app (a b : list event) : sleeps (a ++ b) = sleeps a ++ sleeps b.
Proof.
  induction a as [|[url ua t|n|line] a IH]; cbn; [reflexivity|exact IH| |exact IH].
  rewrite IH. reflexivity.
Qed.

(** What one scraper adds to the log: its request and, when it failed, the
    line that was printed. *)
Lemma outcome_events found log url site :
  exists r evs,
    scraper_outcome found log url site = (r, log ++ evs)
    /\ gets evs = [url] /\ sleeps evs = [] /\ Forall as_configured evs
    /\ (writable -> exists v, r = Ok v).
Proof.
  unfold scraper_outcome. destruct (fetch log url) as [page|e].
  - exists (Ok (source_result (found page))), [HttpGet url USER_AGENT 10].
    cbn. repeat split; eauto. repeat constructor.
  - destruct (handled_cases (log ++ [HttpGet url USER_AGENT 10]) site e)
      as [(e' & -> & Hprint) | (-> & _)].
    + exists (Raise e'), [HttpGet url USER_AGENT 10].
      cbn. repeat split; [repeat constructor|].
      intros Hout. rewrite Hout in Hprint. discriminate.
    + exists (Ok None), [HttpGet url USER_AGENT 10; Print (error_line site e)].
      rewrite <- app_assoc. cbn. repeat split; eauto. repeat constructor.
Qed.

Lemma finviz_events symbol name log :
  exists r evs,
    scrape_finviz_news symbol name log = (r, log ++ evs)
    /\ gets evs
       = match finviz_ticker symbol with
         | Ok ticker => [finviz_url ticker]
         | Raise _ => []
         end
    /\ sleeps evs = [] /\ Forall as_configured evs
    /\ (writable -> exists v, r = Ok v).
Proof.
  rewrite scrape_finviz_run. destruct (finviz_ticker symbol) as [ticker|e].
  - apply outcome_events.
  - destruct (handled_cases log "Finviz" e) as [(e' & -> & Hprint) | (-> & _)].
    + exists (Raise e'), []. rewrite app_nil_r. cbn.
      repeat split; [constructor|].
      intros Hout. rewrite Hout in Hprint. discriminate.
    + exists (Ok None), [Print (error_line "Finviz" e)].
      cbn. repeat split; eauto. repeat constructor.
Qed.

Lemma analysis_events symbol name change_percent start_date end_date log :
  exists a evs,
    get_free_news_analysis symbol name change_percent start_date end_date log
    = (Ok a, log ++ evs)
    /\ (gets evs
        = yahoo_url symbol :: google_url name
          :: match finviz_ticker symbol with
             | Ok ticker => [finviz_url ticker]
             | Raise _ => []
             end
        \/ (method a = "error"
            /\ (gets evs = [yahoo_url symbol]
                \/ gets evs = [yahoo_url symbol; google_url name])))
    /\ (writable ->
        gets evs
        = yahoo_url symbol :: google_url name
          :: match finviz_ticker symbol with
             | Ok ticker => [finviz_url ticker]
             | Raise _ => []
             end)
    /\ sleeps evs = []
    /\ Forall as_configured evs.
Proof.
  destruct (outcome_events yahoo_found log (yahoo_url symbol) "Yahoo Finance")
    as (ry & evs1 & Hy & Hgets1 & Hsleeps1 & Hconf1 & Hout1).
  rewrite <- scrape_yahoo_run with (name := name) in Hy.
  destruct ry as [y|e].
  2: { exists (error_result e), evs1. split.
       { unfold get_free_news_analysis, try_except, aggregate, bind.
         rewrite Hy. reflexivity. }
       rewrite Hgets1. split; [right; cbn; auto|]. split; [|auto].
       intros Hout. destruct (Hout1 Hout). discriminate. }
  destruct (outcome_events google_found (log ++ evs1) (google_url name)
              "Google News")
    as (rg & evs2 & Hg & Hgets2 & Hsleeps2 & Hconf2 & Hout2).
  rewrite <- scrape_google_run with (change_percent := change_percent) in Hg.
  destruct rg as [g|e].
  2: { exists (error_result e), (evs1 ++ evs2). split.
       { unfold get_free_news_analysis, try_except, aggregate, bind.
         rewrite Hy, Hg, app_assoc. reflexivity. }
       rewrite gets_app, sleeps_app, Hgets1, Hgets2, Hsleeps1, Hsleeps2.
       split; [right; cbn; auto|]. split.
       { intros Hout. destruct (Hout2 Hout). discriminate. }
       split; [reflexivity | apply Forall_app; auto]. }
  destruct (finviz_events symbol name ((log ++ evs1) ++ evs2))
    as (rf & evs3 & Hf & Hgets3 & Hsleeps3 & Hconf3 & Hout3).
  assert (Hrest : gets (evs1 ++ evs2 ++ evs3)
                  = yahoo_url symbol :: google_url name
                    :: match finviz_ticker symbol with
                       | Ok ticker => [finviz_url ticker]
                       | Raise _ => []
                       end
                  /\ sleeps (evs1 ++ evs2 ++ evs3) = []
                  /\ Forall as_configured (evs1 ++ evs2 ++ evs3)).
  { rewrite !gets_app, !sleeps_app, !Forall_app.
    rewrite Hgets1, Hgets2, Hgets3, Hsleeps1, Hsleeps2, Hsleeps3. auto. }
  destruct Hrest as (Hgets & Hsleeps & Hconf).
  destruct rf as [f|e].
  - destruct (analysis_after_scrapers symbol name change_percent start_date
                end_date log _ _ _ _ _ _ Hy Hg Hf) as (a & Ha & _).
    exists a, (evs1 ++ evs2 ++ evs3).
    rewrite Ha, !app_assoc. rewrite !app_assoc in Hgets, Hsleeps, Hconf. auto.
  - exists (error_result e), (evs1 ++ evs2 ++ evs3). split.
    { unfold get_free_news_analysis, try_except, aggregate, bind.
      rewrite Hy, Hg, Hf, !app_assoc. reflexivity. }
    auto.
Qed.

(** X5. The analysis of one instrument only adds to the log, and asks the
    sites in the order Yahoo, Google, Finviz, each once, whatever the sites
    answer (no retry, no site skipped because an earlier one had
    headlines); the Finviz request is left out when the ticker cannot be
    built.  The requests stop after Yahoo, or after Google, only when the
    print of that scraper's failure raised, and the analysis then has the
    method "error"; where the standard output takes every line, none is
    left out.  Every request carries the fixed user agent and the timeout
    of 10, and the analysis does not pause. *)
Theorem one_request_per_site
    (symbol name change_percent start_date end_date : pyval)
    (log : list event) :
  exists a evs,
    get_free_news_analysis symbol name change_percent start_date end_date log
    = (Ok a, log ++ evs)
    /\ (gets evs
        = yahoo_url symbol :: google_url name
          :: match finviz_ticker symbol with
             | Ok ticker => [finviz_url ticker]
             | Raise _ => []
             end
        \/ (method a = "error"
            /\ (gets evs = [yahoo_url symbol]
                \/ gets evs = [yahoo_url symbol; google_url name])))
    /\ (writable ->
        gets evs
        = yahoo_url symbol :: google_url name
          :: match finviz_ticker symbol with
             | Ok ticker => [finviz_url ticker]
             | Raise _ => []
             end)
    /\ sleeps evs = []
    /\ Forall as_configured evs.
Proof. apply analysis_events. Qed.

Lemma batch_events start_date end_date symbols analyses log :
  Forall (fun x => carries_keys x = true) symbols ->
  exists items evs,
    analyze_symbols start_date end_date symbols analyses log
    = (Ok (analyses ++ items), log ++ evs)
    /\ sleeps evs = repeat 1 (List.length symbols)
    /\ List.length symbols <= List.length (gets evs)
       <= 3 * List.length symbols
    /\ (writable -> 2 * List.length symbols <= List.length (gets evs))
    /\ Forall as_configured evs.
Proof.
  intros Hall. revert analyses log.
  induction Hall as [|x rest Hx _ IH]; intros analyses log.
  - exists [], []. cbn. rewrite !app_nil_r. repeat split; auto.
  - destruct (analysis_events (field "symbol" x) (field "name" x)
                (field "changePercent" x) start_date end_date log)
      as (a & evs1 & Ha & Hgets & Hfull & Hsleeps & Hconf).
    rewrite (analyze_symbols_step _ _ _ _ _ _ _ _ Hx Ha).
    destruct (IH (analyses
                  ++ [analysis_item (field "symbol" x) (field "name" x)
                        (field "changePercent" x) a])
                 ((log ++ evs1) ++ [Sleep 1]))
      as (items & evs2 & Hrun & Hsleeps2 & Hgets2 & Hfull2 & Hconf2).
    rewrite Hrun.
    exists (analysis_item (field "symbol" x) (field "name" x)
              (field "changePercent" x) a :: items),
           (evs1 ++ Sleep 1 :: evs2).
    split; [rewrite <- !app_assoc; reflexivity|].
    rewrite sleeps_app, gets_app, Hsleeps, length_app.
    cbn [sleeps gets app List.length repeat]. rewrite Hsleeps2.
    split; [reflexivity|]. split; [|split].
    + destruct Hgets as [-> | (_ & [-> | ->])]; cbn [List.length];
        [destruct (finviz_ticker (field "symbol" x)); cbn [List.length]| |];
        lia.
    + intros Hout. specialize (Hfull Hout). specialize (Hfull2 Hout).
      rewrite Hfull.
      destruct (finviz_ticker (field "symbol" x)); cbn [List.length]; lia.
    + apply Forall_app. split; [exact Hconf|].
      constructor; [reflexivity | exact Hconf2].
Qed.

(** X6. A batch of N instruments that carry their keys only adds to the
    log: N pauses, all of one second, between one and three requests per
    instrument, at least two per instrument where the standard output
    takes every line, and every request with the fixed user agent and the
    timeout of 10. *)
Theorem batch_is_throttled
    (d : list (string * pyval)) (symbols : list pyval) (log : list event) :
  dict_lookup "symbols" d = Some (VList symbols) ->
  symbols <> [] ->
  Forall (fun x => carries_keys x = true) symbols ->
  exists analyses evs,
    analyze_market (Ok (VDict d)) log
    = (Ok (VDict [("analyses", VList analyses)], 200), log ++ evs)
    /\ sleeps evs = repeat 1 (List.length symbols)
    /\ List.length symbols <= List.length (gets evs)
       <= 3 * List.length symbols
    /\ (writable -> 2 * List.length symbols <= List.length (gets evs))
    /\ Forall as_configured evs.
Proof.
  intros Hsymbols Hsome Hkeys.
  rewrite (analyze_market_run _ _ _ Hsymbols Hsome).
  destruct (batch_events (field "startDate" (VDict d))
              (field "endDate" (VDict d)) symbols [] log Hkeys)
    as (items & evs & Hrun & Hrest).
  rewrite Hrun. exists items, evs. split; [reflexivity | exact Hrest].
Qed.

(* --------------------------------------------------------------- *)
(** *** When the method is "error" *)

Lemma scraper_result_has_driver symbol name change_percent log log' r :
  scrape_yahoo_finance_news symbol name log = (Ok (Some r), log')
  \/ scrape_google_news name change_percent log = (Ok (Some r), log')
  \/ scrape_finviz_news symbol name log = (Ok (Some r), log') ->
  well_formed_result r.
Proof.
  intros [Hrun | [Hrun | Hrun]].
  - rewrite scrape_yahoo_run in Hrun.
    exact (scraped_well_formed _ _ _ _ _ _ yahoo_found_collected Hrun).
  - rewrite scrape_google_run in Hrun.
    exact (scraped_well_formed _ _ _ _ _ _ google_found_collected Hrun).
  - rewrite scrape_finviz_run in Hrun.
    destruct (finviz_ticker symbol) as [ticker|e].
    + exact (scraped_well_formed _ _ _ _ _ _ finviz_found_collected Hrun).
    + destruct (handled_cases log "Finviz" e) as [(e' & Hh & _) | (Hh & _)];
        rewrite Hh in Hrun; discriminate.
Qed.

Lemma first_three_nonempty (l : list string) :
  l <> [] -> firstn 3 (dedupe_first l) <> [].
Proof. destruct l; [congruence | discriminate]. Qed.

Lemma merged_nonempty y g f :
  drivers_of y ++ drivers_of g ++ drivers_of f <> [] ->
  fst (merged y g f) <> [].
Proof.
  intros Hsome. rewrite merged_lists. cbn [fst].
  apply first_three_nonempty. exact Hsome.
Qed.

Lemma well_formed_has_driver r : well_formed_result r -> sr_drivers r <> [].
Proof.
  intros ((Hone & _) & _). destruct (sr_drivers r); [cbn in Hone; lia | discriminate].
Qed.

(** X7. As soon as one scraper has a result, the analysis is the merge of
    what was scraped with method "free_scraping", whatever the symbol and
    changePercent are: a changePercent that is not a number, or a symbol
    that is not a string, goes unnoticed, because only the fallback looks
    at them. *)
Theorem scraped_headlines_hide_bad_input
    (symbol name change_percent start_date end_date : pyval)
    (log log1 log2 log3 : list event) (y g f : option SourceResult) :
  scrape_yahoo_finance_news symbol name log = (Ok y, log1) ->
  scrape_google_news name change_percent log1 = (Ok g, log2) ->
  scrape_finviz_news symbol name log2 = (Ok f, log3) ->
  y <> None \/ g <> None \/ f <> None ->
  fst (merged y g f) <> []
  /\ get_free_news_analysis symbol name change_percent start_date end_date log
     = (Ok {| drivers := fst (merged y g f);
              sources := snd (merged y g f);
              method := "free_scraping" |}, log3).
Proof.
  intros Hy Hg Hf Hsome.
  assert (Hmerged : fst (merged y g f) <> []).
  { apply merged_nonempty.
    destruct y as [r|].
    { pose proof (well_formed_has_driver r
                    (scraper_result_has_driver symbol name change_percent
                       log log1 r (or_introl Hy))) as Hr.
      cbn [drivers_of]. destruct (sr_drivers r); [congruence | discriminate]. }
    destruct g as [r|].
    { pose proof (well_formed_has_driver r
                    (scraper_result_has_driver symbol name change_percent
                       log1 log2 r (or_intror (or_introl Hg)))) as Hr.
      cbn [drivers_of app]. destruct (sr_drivers r); [congruence | discriminate]. }
    destruct f as [r|].
    { pose proof (well_formed_has_driver r
                    (scraper_result_has_driver symbol name change_percent
                       log2 log3 r (or_intror (or_intror Hf)))) as Hr.
      cbn [drivers_of app]. exact Hr. }
    destruct Hsome as [H | [H | H]]; congruence. }
  split; [exact Hmerged|].
  rewrite analysis_run, (aggregate_run _ _ _ _ _ _ _ _ _ _ Hy Hg Hf).
  destruct (fst (merged y g f)) eqn:E; [congruence | reflexivity].
Qed.

(** X8. When nothing was scraped, a changePercent that is not a number
    and a symbol that is not a string end in the "error" result, with the
    text of Python's TypeError and AttributeError as the only driver. *)
Theorem bad_input_surfaces_in_the_fallback
    (symbol name change_percent start_date end_date : pyval)
    (log log1 log2 log3 : list event) :
  scrape_yahoo_finance_news symbol name log = (Ok None, log1) ->
  scrape_google_news name change_percent log1 = (Ok None, log2) ->
  scrape_finviz_news symbol name log2 = (Ok None, log3) ->
  (is_number change_percent = false ->
   get_free_news_analysis symbol name change_percent start_date end_date log
   = (Ok {| drivers :=
              [ ("Unable to fetch news: "
                 ++ "'>' not supported between instances of '"
                 ++ type_name change_percent ++ "' and 'int'")%string ];
            sources := []; method := "error" |}, log3))
  /\ (forall magnitude amount,
         py_abs change_percent = Ok magnitude ->
         Fmt.format_2f magnitude = Ok amount ->
         is_str symbol = false ->
         get_free_news_analysis symbol name change_percent
           start_date end_date log
         = (Ok {| drivers :=
                    [ ("Unable to fetch news: '" ++ type_name symbol
                       ++ "' object has no attribute 'replace'")%string ];
                  sources := []; method := "error" |}, log3)).
Proof.
  intros Hy Hg Hf.
  split.
  - intros Hnumber.
    rewrite analysis_run, (aggregate_run _ _ _ _ _ _ _ _ _ _ Hy Hg Hf).
    cbn [merged extend dedupe_and_limit fromkeys fold_left firstn fst snd].
    unfold fallback. run.
    destruct change_percent; try discriminate; reflexivity.
  - intros magnitude amount Habs Hfmt Hsymbol.
    rewrite analysis_run, (aggregate_run _ _ _ _ _ _ _ _ _ _ Hy Hg Hf).
    cbn [merged extend dedupe_and_limit fromkeys fold_left firstn fst snd].
    unfold fallback. run.
    assert (Hgt : exists positive, py_gt0 change_percent = Ok positive).
    { destruct change_percent as [| | |[| |]| | |]; try discriminate; cbn; eauto. }
    destruct Hgt as (positive & ->). rewrite Habs, Hfmt.
    destruct symbol; try discriminate; reflexivity.
Qed.

(* --------------------------------------------------------------- *)
(** *** The URLs that are built *)

Lemma has_char_app (c : ascii) (a b : string) :
  has_char c (a ++ b) = has_char c a || has_char c b.
Proof.
  induction a as [|x a IH]; cbn; [reflexivity|].
  rewrite IH, orb_assoc. reflexivity.
Qed.

Lemma prefix_empty (s : string) : prefix "" s = true.
Proof. destruct s; reflexivity. Qed.

(** Replacing a character by a text without it leaves none of it. *)
Lemma replace_char_gone (c : ascii) (new s : string) :
  has_char c new = false ->
  has_char c (Str.replace (String c "") new s) = false.
Proof.
  intros Hnew. cbn [Str.replace].
  induction s as [|a r IH]; [reflexivity|].
  cbn [Str.replace_from prefix String.length Nat.sub].
  destruct (ascii_dec c a) as [->|Hca].
  - rewrite prefix_empty, has_char_app, Hnew, IH. reflexivity.
  - cbn [has_char]. rewrite IH.
    destruct (Ascii.eqb a c) eqn:E; [|reflexivity].
    apply Ascii.eqb_eq in E. congruence.
Qed.

(** Removing a text brings in no character that was not there. *)
Lemma remove_brings_nothing (c : ascii) (old s : string) (skip : nat) :
  has_char c s = false ->
  has_char c (Str.replace_from old "" skip s) = false.
Proof.
  revert skip. induction s as [|a r IH]; intros skip Hs; [reflexivity|].
  cbn [has_char] in Hs. apply orb_false_iff in Hs. destruct Hs as (Ha & Hr).
  cbn [Str.replace_from]. destruct skip as [|k]; [|apply IH; exact Hr].
  destruct (prefix old (String a r)).
  - cbn [append]. apply IH. exact Hr.
  - cbn [has_char]. rewrite Ha, IH by exact Hr. reflexivity.
Qed.

(** A text whose first character is absent is nowhere to replace. *)
Lemma replace_absent (o : ascii) (os new s : string) :
  has_char o s = false -> Str.replace (String o os) new s = s.
Proof.
  cbn [Str.replace]. induction s as [|a r IH]; intros Hs; [reflexivity|].
  cbn [has_char] in Hs. apply orb_false_iff in Hs. destruct Hs as (Ha & Hr).
  cbn [Str.replace_from prefix].
  destruct (ascii_dec o a) as [->|Hoa].
  - rewrite Ascii.eqb_refl in Ha. discriminate.
  - rewrite IH by exact Hr. reflexivity.
Qed.

(** X9. The search URL for Google News never holds a space, whatever the
    name is; the ticker in the Finviz URL never holds a caret; and a
    symbol without caret and without equals sign is its own ticker. *)
Theorem urls_are_clean :
  (forall name, has_char " " (google_url name) = false)
  /\ (forall s ticker,
         finviz_ticker (VStr s) = Ok ticker ->
         has_char "^" ticker = false
         /\ has_char "^" (finviz_url ticker) = false)
  /\ (forall s,
         has_char "^" s = false -> has_char "=" s = false ->
         finviz_ticker (VStr s) = Ok s).
Proof.
  split; [|split].
  - intros name. unfold google_url.
    rewrite !has_char_app, replace_char_gone by reflexivity. reflexivity.
  - intros s ticker. unfold finviz_ticker, py_replace. intros [= <-].
    assert (Hticker : has_char "^"
                        (Str.replace "=F" "" (Str.replace "=X" "" (Str.replace "^" "" s)))
                      = false).
    { cbn [Str.replace]. apply remove_brings_nothing, remove_brings_nothing.
      apply (replace_char_gone "^" "" s). reflexivity. }
    split; [exact Hticker|].
    change (has_char "^"
              (finviz_url
                 (Str.replace "=F" "" (Str.replace "=X" "" (Str.replace "^" "" s))))
            = false).
    unfold finviz_url. rewrite has_char_app, Hticker. reflexivity.
  - intros s Hcaret Hequals. unfold finviz_ticker, py_replace.
    change (Ok (Str.replace "=F" "" (Str.replace "=X" "" (Str.replace "^" "" s)))
            = Ok s).
    rewrite (replace_absent "^" "" "" s Hcaret).
    rewrite (replace_absent "=" "X" "" s Hequals).
    rewrite (replace_absent "=" "F" "" s Hequals). reflexivity.
Qed.

(* --------------------------------------------------------------- *)
(** *** Laws of the deduplication *)

Lemma filter_all {A} (f : A -> bool) (l : list A) :
  (forall x, In x l -> f x = true) -> filter f l = l.
Proof.
  induction l as [|a l IH]; intros Hall; cbn; [reflexivity|].
  rewrite (Hall a) by (left; reflexivity).
  rewrite IH; [reflexivity|]. intros x Hx. apply Hall. right. exact Hx.
Qed.

Lemma dedupe_first_fixed (l : list string) : NoDup l -> dedupe_first l = l.
Proof.
  induction 1 as [|x l Hx _ IH]; cbn; [reflexivity|].
  rewrite IH, filter_all; [reflexivity|].
  intros y Hy. apply negb_true_iff, String.eqb_neq. congruence.
Qed.

Lemma fromkeys_app (a b : list string) :
  fromkeys (a ++ b)
  = fromkeys a
    ++ filter (fun y => negb (existsb (String.eqb y) (fromkeys a))) (fromkeys b).
Proof.
  unfold fromkeys at 1. rewrite fold_left_app. fold (fromkeys a).
  rewrite fromkeys_from, <- fromkeys_dedupe_first. reflexivity.
Qed.

(** X10. Laws of [list(dict.fromkeys(...))]: over a concatenation it
    keeps the keys of the first list and then those keys of the second
    that are new; it changes nothing in a list without duplicates; doing
    it twice is doing it once. *)
Theorem fromkeys_laws :
  (forall a b,
      fromkeys (a ++ b)
      = fromkeys a
        ++ filter (fun y => negb (existsb (String.eqb y) (fromkeys a)))
                  (fromkeys b))
  /\ (forall l, NoDup l -> fromkeys l = l)
  /\ (forall l, fromkeys (fromkeys l) = fromkeys l).
Proof.
  split; [exact fromkeys_app|]. split.
  - intros l Hl. rewrite fromkeys_dedupe_first. apply dedupe_first_fixed, Hl.
  - intros l. rewrite (fromkeys_dedupe_first (fromkeys l)).
    apply dedupe_first_fixed. rewrite fromkeys_dedupe_first.
    apply dedupe_first_NoDup.
Qed.

(** X11. Yahoo comes first: the drivers of a scraped result start with
    Yahoo's distinct headlines, and headlines of Google and Finviz only
    fill the places that are left among the three, when they are new.  With
    three distinct Yahoo headlines no other headline is a driver. *)
Theorem yahoo_headlines_come_first
    (symbol name change_percent start_date end_date : pyval)
    (log log1 log2 log3 : list event) (y g f : option SourceResult) :
  scrape_yahoo_finance_news symbol name log = (Ok y, log1) ->
  scrape_google_news name change_percent log1 = (Ok g, log2) ->
  scrape_finviz_news symbol name log2 = (Ok f, log3) ->
  fst (merged y g f) <> [] ->
  exists a,
    get_free_news_analysis symbol name change_percent start_date end_date log
    = (Ok a, log3)
    /\ drivers a
       = firstn 3 (fromkeys (drivers_of y))
         ++ firstn (3 - List.length (fromkeys (drivers_of y)))
              (filter
                 (fun d => negb (existsb (String.eqb d) (fromkeys (drivers_of y))))
                 (fromkeys (drivers_of g ++ drivers_of f)))
    /\ (List.length (fromkeys (drivers_of y)) = 3 ->
        drivers a = fromkeys (drivers_of y)).
Proof.
  intros Hy Hg Hf Hsome.
  rewrite analysis_run, (aggregate_run _ _ _ _ _ _ _ _ _ _ Hy Hg Hf).
  destruct (fst (merged y g f)) as [|d ds] eqn:E; [congruence|].
  eexists. split; [reflexivity|]. cbn [drivers]. rewrite <- E.
  rewrite merged_lists. cbn [fst].
  rewrite <- fromkeys_dedupe_first, fromkeys_app, firstn_app.
  split; [reflexivity|].
  intros Hthree. rewrite Hthree, Nat.sub_diag, firstn_O, app_nil_r.
  rewrite <- Hthree. apply firstn_all.
Qed.

(* --------------------------------------------------------------- *)
(** *** No empty string in a result *)

Lemma nonempty_app_r (a b : string) :
  Str.nonempty b = true -> Str.nonempty (a ++ b) = true.
Proof. destruct a; [intros H; exact H | reflexivity]. Qed.

Lemma citation_nonempty (title link : string) :
  Str.nonempty (citation title link) = true.
Proof. unfold citation. apply nonempty_app_r. reflexivity. Qed.

Lemma in_first (n : nat) (l : list string) (x : string) :
  In x (firstn n l) -> In x l.
Proof.
  revert l. induction n as [|n IH]; intros [|a l]; cbn; try tauto.
  intros [H|H]; [left; exact H | right; apply IH; exact H].
Qed.

Lemma fallback_strings symbol name change_percent log acc log' :
  fallback symbol name change_percent log = (Ok acc, log') ->
  Forall (fun d => Str.nonempty d = true) (fst acc)
  /\ Forall (fun s => Str.nonempty s = true) (snd acc).
Proof.
  unfold fallback. run.
  destruct (py_gt0 change_percent); [|discriminate].
  destruct (py_abs change_percent) as [magnitude|]; [|discriminate].
  destruct (Fmt.format_2f magnitude); [|discriminate].
  destruct (py_replace symbol "^" ""); [|discriminate].
  intros [= <- _]. cbn [fst snd]. split.
  - repeat constructor. apply nonempty_app_r. reflexivity.
  - repeat constructor.
Qed.

Lemma scraped_strings symbol name change_percent log log' r :
  scrape_yahoo_finance_news symbol name log = (Ok (Some r), log')
  \/ scrape_google_news name change_percent log = (Ok (Some r), log')
  \/ scrape_finviz_news symbol name log = (Ok (Some r), log') ->
  Forall (fun d => Str.nonempty d = true) (sr_drivers r)
  /\ Forall (fun s => Str.nonempty s = true) (sr_sources r).
Proof.
  intros Hrun. apply scraper_result_has_driver in Hrun.
  destruct Hrun as (_ & _ & Hds & Hss). split.
  - eapply Forall_impl; [|exact Hds]. intros d [Hd _]. exact Hd.
  - eapply Forall_impl; [|exact Hss].
    intros s (title & link & _ & _ & ->). apply citation_nonempty.
Qed.

(** X12. No AnalysisResult holds an empty string, neither among its
    drivers nor among its sources, whatever the pages and the request
    were. *)
Theorem results_hold_no_empty_string
    (symbol name change_percent start_date end_date : pyval)
    (log : list event) :
  exists a log',
    get_free_news_analysis symbol name change_percent start_date end_date log
    = (Ok a, log')
    /\ Forall (fun d => Str.nonempty d = true) (drivers a)
    /\ Forall (fun s => Str.nonempty s = true) (sources a).
Proof.
  destruct (analysis_total symbol name change_percent start_date end_date log)
    as (a0 & log3 & Ha0
        & [(e & ->) | (y & g & f & log1 & log2 & Hy & Hg & Hf & _)]).
  { do 2 eexists. split; [exact Ha0|]. cbn. split; repeat constructor. }
  clear a0 Ha0.
  assert (Hyd : Forall (fun d => Str.nonempty d = true) (drivers_of y)
                /\ Forall (fun s => Str.nonempty s = true) (sources_of y)).
  { destruct y as [r|]; [|split; constructor].
    exact (scraped_strings symbol name change_percent log log1 r (or_introl Hy)). }
  assert (Hgd : Forall (fun d => Str.nonempty d = true) (drivers_of g)
                /\ Forall (fun s => Str.nonempty s = true) (sources_of g)).
  { destruct g as [r|]; [|split; constructor].
    exact (scraped_strings symbol name change_percent log1 log2 r
             (or_intror (or_introl Hg))). }
  assert (Hfd : Forall (fun d => Str.nonempty d = true) (drivers_of f)
                /\ Forall (fun s => Str.nonempty s = true) (sources_of f)).
  { destruct f as [r|]; [|split; constructor].
    exact (scraped_strings symbol name change_percent log2 log3 r
             (or_intror (or_intror Hf))). }
  rewrite analysis_run, (aggregate_run _ _ _ _ _ _ _ _ _ _ Hy Hg Hf).
  destruct (fst (merged y g f)) as [|d ds] eqn:E.
  - destruct (fallback symbol name change_percent log3) as [[acc|e] log'] eqn:Hfb.
    + apply fallback_strings in Hfb. do 2 eexists. split; [reflexivity | exact Hfb].
    + do 2 eexists. split; [reflexivity|]. cbn. split; repeat constructor.
  - do 2 eexists. split; [reflexivity|]. cbn [drivers sources]. rewrite <- E.
    rewrite merged_lists. cbn [fst snd]. split; apply Forall_forall; intros x Hx;
      apply in_first in Hx; apply (proj1 (dedupe_first_In _ _)) in Hx;
      rewrite !in_app_iff in Hx;
      destruct Hyd as (Hyd & Hys), Hgd as (Hgd & Hgs), Hfd as (Hfd & Hfs);
      rewrite Forall_forall in Hyd, Hys, Hgd, Hgs, Hfd, Hfs;
      destruct Hx as [Hx | [Hx | Hx]]; auto.
Qed.

(* --------------------------------------------------------------- *)
(** *** Integers as changePercent *)

Lemma abs_N_below (z : Z) (k : N) :
  (Z.abs z < 2 ^ Z.of_N k)%Z -> (Z.abs_N z < 2 ^ k)%N.
Proof.
  intros H. apply N2Z.inj_lt. rewrite N2Z.inj_abs_N, N2Z.inj_pow. exact H.
Qed.

Lemma abs_N_above (z : Z) (k : N) :
  (2 ^ Z.of_N k <= Z.abs z)%Z -> (2 ^ k <= Z.abs_N z)%N.
Proof.
  intros H. apply N2Z.inj_le. rewrite N2Z.inj_abs_N, N2Z.inj_pow. exact H.
Qed.

Lemma abs_N_abs (z : Z) : Z.abs_N (Z.abs z) = Z.abs_N z.
Proof. destruct z; reflexivity. Qed.

Lemma abs_not_negative (z : Z) : (Z.abs z <? 0)%Z = false.
Proof. apply Z.ltb_ge, Z.abs_nonneg. Qed.

Lemma size_below (a k : N) : (a < 2 ^ k)%N -> (N.size a <= k)%N.
Proof.
  intros Ha. destruct (N.eq_dec a 0) as [->|Hpos]; [cbn; lia|].
  rewrite N.size_log2 by exact Hpos.
  apply N.le_succ_l, N.log2_lt_pow2; [lia | exact Ha].
Qed.

Lemma format_small_int (z : Z) :
  (Z.abs z < 2 ^ Z.of_N 53)%Z ->
  Fmt.format_2f (NInt (Z.abs z))
  = Ok (Fmt.N_to_string (Z.abs_N z) ++ ".00")%string.
Proof.
  intros Hz. apply abs_N_below, size_below in Hz.
  unfold Fmt.format_2f, Fmt.int_to_float.
  rewrite abs_N_abs, abs_not_negative.
  apply N.leb_le in Hz. rewrite Hz.
  unfold Fmt.format_float_2f, Fmt.hundredths. cbn [Z.leb Z.compare Z.to_N].
  rewrite N.pow_0_r, N.mul_1_r, N.div_mul, N.Div0.mod_mul by discriminate.
  reflexivity.
Qed.

Lemma round_half_even_floor (num den : N) :
  (num / den <= Fmt.round_half_even num den)%N.
Proof.
  unfold Fmt.round_half_even.
  destruct (2 * (num mod den) <? den)%N; [lia|].
  destruct (den <? 2 * (num mod den))%N; [lia|].
  destruct (N.even (num / den)); lia.
Qed.

Lemma format_huge_int (z : Z) :
  (2 ^ Z.of_N 1024 <= Z.abs z)%Z ->
  Fmt.format_2f (NInt (Z.abs z))
  = Raise (OverflowError "int too large to convert to float").
Proof.
  intros Hz. apply abs_N_above in Hz.
  unfold Fmt.format_2f, Fmt.int_to_float.
  rewrite abs_N_abs, abs_not_negative.
  set (a := Z.abs_N z) in *.
  assert (Hpos : (0 < a)%N).
  { eapply N.lt_le_trans; [|exact Hz].
    apply N.neq_0_lt_0, N.pow_nonzero. discriminate. }
  assert (Hlog : (1024 <= N.log2 a)%N) by (apply N.log2_le_pow2; assumption).
  rewrite N.size_log2 by lia.
  assert (Hbits : (N.succ (N.log2 a) <=? 53)%N = false) by (apply N.leb_gt; lia).
  rewrite Hbits.
  set (sh := (N.succ (N.log2 a) - 53)%N).
  assert (Hsplit : (2 ^ N.log2 a = 2 ^ 52 * 2 ^ sh)%N).
  { rewrite <- N.pow_add_r. f_equal. unfold sh. lia. }
  assert (Hden : (2 ^ sh <> 0)%N) by (apply N.pow_nonzero; discriminate).
  assert (Hfloor : (2 ^ 52 <= a / 2 ^ sh)%N).
  { rewrite <- (N.div_mul (2 ^ 52) (2 ^ sh)) by exact Hden.
    apply N.Div0.div_le_mono. rewrite <- Hsplit.
    apply N.log2_spec. exact Hpos. }
  assert (Hq : (2 ^ 52 <= Fmt.round_half_even a (2 ^ sh))%N).
  { eapply N.le_trans; [exact Hfloor | apply round_half_even_floor]. }
  assert (Hbig : (2 ^ 1024 <= Fmt.round_half_even a (2 ^ sh) * 2 ^ sh)%N).
  { eapply N.le_trans; [apply (N.pow_le_mono_r 2 1024 (N.log2 a)); [discriminate | exact Hlog]|].
    rewrite Hsplit. apply N.mul_le_mono_r. exact Hq. }
  apply N.leb_le in Hbig. rewrite Hbig. reflexivity.
Qed.

(** X13. An integer changePercent below 2^53 in magnitude is written in
    the fallback sentence as that integer followed by ".00", with
    "increased" when it is positive and "decreased" otherwise. *)
Theorem integer_change_is_shown_with_two_zeros
    (symbol : string) (name : pyval) (z : Z) (log : list event) :
  (Z.abs z < 2 ^ Z.of_N 53)%Z ->
  exists advice trends sources,
    fallback (VStr symbol) name (VInt z) log
    = (Ok ([ (py_str name ++ " "
              ++ (if (0 <? z)%Z then "increased" else "decreased")
              ++ " by " ++ (Fmt.N_to_string (Z.abs_N z) ++ ".00")
              ++ "% during this period.")%string;
             advice; trends ], sources), log).
Proof.
  intros Hz. do 3 eexists.
  rewrite (fallback_ok symbol name (VInt z) (0 <? z)%Z (NInt (Z.abs z))
             (Fmt.N_to_string (Z.abs_N z) ++ ".00")%string log);
    [reflexivity | reflexivity | reflexivity | apply format_small_int; exact Hz].
Qed.

(** X14. An integer changePercent of 2^1024 or more in magnitude cannot
    be formatted: when nothing was scraped its analysis is the "error"
    result with the text of the OverflowError. *)
Theorem integer_too_large_for_the_fallback
    (symbol name start_date end_date : pyval) (z : Z)
    (log log1 log2 log3 : list event) :
  scrape_yahoo_finance_news symbol name log = (Ok None, log1) ->
  scrape_google_news name (VInt z) log1 = (Ok None, log2) ->
  scrape_finviz_news symbol name log2 = (Ok None, log3) ->
  (2 ^ Z.of_N 1024 <= Z.abs z)%Z ->
  get_free_news_analysis symbol name (VInt z) start_date end_date log
  = (Ok {| drivers :=
             ["Unable to fetch news: int too large to convert to float"];
           sources := []; method := "error" |}, log3).
Proof.
  intros Hy Hg Hf Hz.
  rewrite analysis_run, (aggregate_run _ _ _ _ _ _ _ _ _ _ Hy Hg Hf).
  cbn [merged extend dedupe_and_limit fromkeys fold_left firstn fst snd].
  unfold fallback. run. cbn [py_gt0 py_abs].
  rewrite (format_huge_int z Hz). reflexivity.
Qed.

(* --------------------------------------------------------------- *)
(** *** More on timestamps, batches and headlines *)

(** X15. Two clock readings with the same timestamp are the same
    reading: [isoformat] loses nothing of a date and time. *)
Theorem timestamps_are_distinct (t1 t2 : datetime) :
  valid_datetime t1 -> valid_datetime t2 ->
  isoformat t1 = isoformat t2 -> t1 = t2.
Proof.
  intros H1 H2 Hsame.
  apply parse_isoformat in H1. apply parse_isoformat in H2.
  rewrite Hsame in H1. congruence.
Qed.

Lemma analyze_market_ok d symbols analyses log log' :
  dict_lookup "symbols" d = Some (VList symbols) ->
  analyze_market (Ok (VDict d)) log
  = (Ok (VDict [("analyses", VList analyses)], 200), log') ->
  symbols <> []
  /\ analyze_symbols VNone VNone symbols [] log = (Ok analyses, log').
Proof.
  intros Hsymbols Hrun.
  assert (Hsome : symbols <> []).
  { intros ->. unfold analyze_market in Hrun. run.
    cbn [py_get] in Hrun. rewrite Hsymbols in Hrun. discriminate. }
  split; [exact Hsome|].
  rewrite (analyze_market_run _ _ _ Hsymbols Hsome) in Hrun.
  rewrite (analyze_symbols_dates _ _ VNone VNone) in Hrun.
  destruct (analyze_symbols VNone VNone symbols [] log) as [[items|e] log2];
    [|discriminate].
  injection Hrun as <- <-. reflexivity.
Qed.

(** X16. Batches compose: when a first request is answered with its
    analyses and a second one, sent next, with its own, the single request
    for the two lists one after the other is answered with the two arrays
    joined, and leaves the same log. *)
Theorem batches_compose
    (d1 d2 d : list (string * pyval)) (before after : list pyval)
    (first second : list pyval) (log log1 log2 : list event) :
  dict_lookup "symbols" d1 = Some (VList before) ->
  dict_lookup "symbols" d2 = Some (VList after) ->
  dict_lookup "symbols" d = Some (VList (before ++ after)) ->
  analyze_market (Ok (VDict d1)) log
  = (Ok (VDict [("analyses", VList first)], 200), log1) ->
  analyze_market (Ok (VDict d2)) log1
  = (Ok (VDict [("analyses", VList second)], 200), log2) ->
  analyze_market (Ok (VDict d)) log
  = (Ok (VDict [("analyses", VList (first ++ second))], 200), log2).
Proof.
  intros H1 H2 H Hfirst Hsecond.
  destruct (analyze_market_ok _ _ _ _ _ H1 Hfirst) as (Hsome & Hrun1).
  destruct (analyze_market_ok _ _ _ _ _ H2 Hsecond) as (_ & Hrun2).
  rewrite (analyze_market_run _ _ _ H)
    by (destruct before; [congruence | discriminate]).
  rewrite (analyze_symbols_dates _ _ VNone VNone), analyze_symbols_app, Hrun1.
  rewrite analyze_symbols_from, Hrun2. reflexivity.
Qed.

Lemma fold_unchanged {A}
    (step : list string * list string -> A -> list string * list string)
    (l : list A) acc :
  Forall (fun x => forall acc, step acc x = acc) l -> fold_left step l acc = acc.
Proof.
  intros Hall. revert acc. induction Hall as [|x l Hx _ IH]; intros acc; cbn;
    [reflexivity|]. rewrite Hx. apply IH.
Qed.

Lemma append_blank acc (text link : string) :
  Str.strip text = "" -> append_article acc (Str.strip text) link = acc.
Proof. intros ->. destruct acc. reflexivity. Qed.

(** X17. Blank headlines use up the limit of three: when the first three
    elements of a page give no title (their text is blank, or they hold no
    link element to take it from), the scraper has "no result", whatever
    comes after them on the page. *)
Theorem blank_headlines_use_up_the_limit
    (symbol name change_percent : pyval) (log : list event)
    (content : string) (page : soup) :
  BeautifulSoup content = Ok page ->
  (network log (yahoo_url symbol) = Ok content ->
   Forall (fun h => Str.strip (h3_text h) = "")
          (firstn 3 (find_all_h3_Mb5px page)) ->
   no_result (scrape_yahoo_finance_news symbol name) log)
  /\ (network log (google_url name) = Ok content ->
      Forall (fun a => match article_a_JtKRv a with
                       | Some title_elem => Str.strip (a_text title_elem) = ""
                       | None => True
                       end)
             (firstn 3 (find_all_article page)) ->
      no_result (scrape_google_news name change_percent) log)
  /\ (forall ticker trs,
         finviz_ticker symbol = Ok ticker ->
         network log (finviz_url ticker) = Ok content ->
         find_table_news page = Some trs ->
         Forall (fun item => match tr_a item with
                             | Some link_elem => Str.strip (a_text link_elem) = ""
                             | None => True
                             end)
                (firstn 3 trs) ->
         no_result (scrape_finviz_news symbol name) log).
Proof.
  intros Hpage. split; [|split].
  - intros Hget Hblank.
    destruct (scraper_degrades _ _ "Yahoo Finance" yahoo_found
                (scrape_yahoo_run symbol name) log) as (_ & _ & Hnone & _).
    apply (Hnone content page Hget Hpage).
    unfold yahoo_found. rewrite fold_unchanged; [reflexivity|].
    eapply Forall_impl; [|exact Hblank].
    intros h Hh acc. unfold yahoo_article. apply append_blank, Hh.
  - intros Hget Hblank.
    destruct (scraper_degrades _ _ "Google News" google_found
                (scrape_google_run name change_percent) log) as (_ & _ & Hnone & _).
    apply (Hnone content page Hget Hpage).
    unfold google_found. rewrite fold_unchanged; [reflexivity|].
    eapply Forall_impl; [|exact Hblank].
    intros a Ha acc. unfold google_article. cbn beta in Ha.
    destruct (article_a_JtKRv a); [apply append_blank; exact Ha | reflexivity].
  - intros ticker trs Hticker Hget Htable Hblank.
    assert (Hrun : forall log0,
               scrape_finviz_news symbol name log0
               = scraper_outcome finviz_found log0 (finviz_url ticker)
                   "Finviz").
    { intros log0. rewrite scrape_finviz_run, Hticker. reflexivity. }
    destruct (scraper_degrades _ _ "Finviz" finviz_found Hrun log)
      as (_ & _ & Hnone & _).
    apply (Hnone content page Hget Hpage).
    unfold finviz_found. rewrite Htable, fold_unchanged; [reflexivity|].
    eapply Forall_impl; [|exact Hblank].
    intros item Hitem acc. unfold finviz_item. cbn beta in Hitem.
    destruct (tr_a item); [apply append_blank; exact Hitem | reflexivity].
Qed.

Lemma take_prefix (n : nat) (s : string) :
  String.length (Str.take n s) <= n /\ prefix (Str.take n s) s = true.
Proof.
  unfold Str.take. revert n. induction s as [|c s IH]; intros [|n]; cbn;
    try (split; [lia | reflexivity]).
  destruct (IH n) as (Hlen & Hprefix).
  split; [lia|]. destruct (ascii_dec c c); [exact Hprefix | congruence].
Qed.

Lemma take_short (n : nat) (s : string) :
  String.length s <= n -> Str.take n s = s.
Proof.
  unfold Str.take. revert n. induction s as [|c s IH]; intros [|n] Hlen; cbn in *;
    try reflexivity; try lia.
  rewrite IH by lia. reflexivity.
Qed.

(** X18. A citation starts with at most 50 characters of the title, taken
    from its beginning, and goes on with "... - " and the link; a title of
    at most 50 characters is cited in full, the three dots after it
    all the same. *)
Theorem citation_cuts_the_title (title link : string) :
  (exists head,
      citation title link = (head ++ "... - " ++ link)%string
      /\ String.length head <= 50
      /\ prefix head title = true)
  /\ (String.length title <= 50 ->
      citation title link = (title ++ "... - " ++ link)%string).
Proof.
  split.
  - exists (Str.take 50 title). split; [reflexivity | apply take_prefix].
  - intros Hshort. unfold citation. rewrite take_short by exact Hshort.
    reflexivity.
Qed.

End App.

(* ================================================================= *)
(** ** The theorems at work in the concrete worlds *)

Lemma one_analysis_per_instrument_witness :
  exists analyses log',
    analyze_market Example.repr Example.offline Example.parser Example.console
      (Ok (VDict (Example.fields [Example.sp500; Example.euro]
                    "2024-01-01" "2024-01-08")))
      []
    = (Ok (VDict [("analyses", VList analyses)], 200), log')
    /\ List.length analyses = List.length [Example.sp500; Example.euro]
    /\ (forall i symbol_data,
           nth_error [Example.sp500; Example.euro] i = Some symbol_data ->
           exists item,
             nth_error analyses i = Some item
             /\ py_getitem item "symbol" = Ok (field "symbol" symbol_data)
             /\ py_getitem item "name" = Ok (field "name" symbol_data)
             /\ py_getitem item "changePercent"
                = Ok (field "changePercent" symbol_data)
             /\ entry_of Example.repr Example.offline Example.parser
                  Example.console (VStr "2024-01-01") (VStr "2024-01-08")
                  symbol_data item).
Proof.
  apply (one_analysis_per_instrument Example.repr Example.offline
           Example.parser Example.console
           (Example.fields [Example.sp500; Example.euro]
              "2024-01-01" "2024-01-08")
           [Example.sp500; Example.euro] []).
  - reflexivity.
  - cbn. lia.
  - repeat constructor.
Defined.

(** The fallback of the specification's example: 3.14 on "Test Index". *)
Lemma fallback_when_nothing_scraped_witness :
  exists log3 sentence advice trends source1 source2,
    get_free_news_analysis Example.repr Example.offline Example.parser
      Example.console
      (VStr "^GSPC") (VStr "Test Index") (VFloat float_3_14) VNone VNone []
    = (Ok {| drivers := [sentence; advice; trends];
             sources := [source1; source2];
             method := "free_scraping" |}, log3)
    /\ sentence = "Test Index increased by 3.14% during this period."
    /\ Str.contains "Test Index" sentence = true
    /\ Str.contains "increased" sentence = true
    /\ Str.contains "3.14" sentence = true.
Proof.
  eexists.
  eapply (fallback_when_nothing_scraped Example.repr Example.offline
            Example.parser
              Example.console "^GSPC" (VStr "Test Index") (VFloat float_3_14)
            VNone VNone true (NFloat float_3_14) "3.14" []);
    reflexivity.
Defined.

(** -2.0 gives "decreased" and "2.00"; so does 0, with "0.00". *)
Example fallback_decreased :
  fst (get_free_news_analysis Example.repr Example.offline Example.parser
    Example.console
         (VStr "EURUSD=X") (VStr "Euro") (VFloat float_neg_2) VNone VNone [])
  = Ok {| drivers :=
            [ "Euro decreased by 2.00% during this period.";
              "Check financial news sources for detailed analysis of market conditions.";
              "Consider broader market trends and sector-specific factors." ];
          sources :=
            [ "Yahoo Finance - https://finance.yahoo.com/quote/EURUSD=X";
              "Google Finance - https://www.google.com/finance/quote/EURUSD=X:INDEXSP" ];
          method := "free_scraping" |}
  /\ fst (fallback Example.repr (VStr "GC=F") (VStr "Gold") (VInt 0) [])
     = Ok ([ "Gold decreased by 0.00% during this period.";
             "Check financial news sources for detailed analysis of market conditions.";
             "Consider broader market trends and sector-specific factors." ],
           [ "Yahoo Finance - https://finance.yahoo.com/quote/GC=F";
             "Google Finance - https://www.google.com/finance/quote/GC=F:INDEXSP" ]).
Proof. split; reflexivity. Qed.

(** An integer too large for a float: the three scrapers return "no
    result", the fallback raises while it formats the change, and the
    result has method "error". *)
Lemma fallback_fails_on_huge_integer :
  exists log1 log2 log3 a,
    scrape_yahoo_finance_news Example.repr Example.offline Example.parser
      Example.console
      (VStr "X") (VStr "Test Index") [] = (Ok None, log1)
    /\ scrape_google_news Example.repr Example.offline Example.parser
      Example.console
         (VStr "Test Index") (VInt (10 ^ 400)) log1 = (Ok None, log2)
    /\ scrape_finviz_news Example.offline Example.parser Example.console
         (VStr "X") (VStr "Test Index") log2 = (Ok None, log3)
    /\ get_free_news_analysis Example.repr Example.offline Example.parser
      Example.console
         (VStr "X") (VStr "Test Index") (VInt (10 ^ 400)) VNone VNone []
       = (Ok a, log3)
    /\ drivers a = ["Unable to fetch news: int too large to convert to float"]
    /\ method a = "error"
    /\ method a <> "free_scraping".
Proof.
  do 4 eexists.
  split; [reflexivity|]. split; [reflexivity|]. split; [reflexivity|].
  split; [vm_compute; reflexivity|].
  split; [reflexivity|]. split; [reflexivity | discriminate].
Qed.

(** The merge of the three pages of [Example.online], through the
    theorem. *)
Lemma merge_dedupes_and_truncates_witness :
  exists log3,
    get_free_news_analysis Example.repr Example.online Example.parser
      Example.console
      (VStr "^GSPC") (VStr "S&P 500") (VFloat float_3_14) VNone VNone []
    = (Ok {| drivers := ["A"; "B"; "C"];
             sources := [ "A... - https://finance.yahoo.com/news/a";
                          "B... - https://finance.yahoo.com/news/b";
                          "A... - https://news.google.com/read/a";
                          "D... - https://x.test/d";
                          "E... - https://x.test/e" ];
             method := "free_scraping" |}, log3).
Proof.
  destruct (merge_dedupes_and_truncates Example.repr Example.online
              Example.parser Example.console) as (_ & _ & _ & _ & Hmerge & _).
  eexists. etransitivity.
  - eapply Hmerge.
    + vm_compute. reflexivity.
    + vm_compute. reflexivity.
    + vm_compute. reflexivity.
    + vm_compute. discriminate.
  - vm_compute. reflexivity.
Defined.

(** Scraped headlines of three pages, merged: "A" and "B" come twice and
    stay once, the headline without text is dropped, three drivers and
    five sources are kept. *)
Example merged_headlines :
  fst (get_free_news_analysis Example.repr Example.online Example.parser
    Example.console
         (VStr "^GSPC") (VStr "S&P 500") (VFloat float_3_14) VNone VNone [])
  = Ok {| drivers := ["A"; "B"; "C"];
          sources := [ "A... - https://finance.yahoo.com/news/a";
                       "B... - https://finance.yahoo.com/news/b";
                       "A... - https://news.google.com/read/a";
                       "D... - https://x.test/d";
                       "E... - https://x.test/e" ];
          method := "free_scraping" |}.
Proof. reflexivity. Qed.

Lemma analysis_drivers_nonempty_witness :
  exists a log',
    get_free_news_analysis Example.repr Example.yahoo_only Example.parser
      Example.console
      (VStr "^GSPC") (VStr "S&P 500") (VFloat float_3_14) VNone VNone []
    = (Ok a, log')
    /\ drivers a <> []
    /\ (method a = "error" \/ method a = "free_scraping")
    /\ (method a = "error" -> sources a = [])
    /\ (method a = "free_scraping" ->
        exists yahoo_news google_news finviz_news log1 log2,
          scrape_yahoo_finance_news Example.repr Example.yahoo_only
            Example.parser Example.console (VStr "^GSPC") (VStr "S&P 500") []
          = (Ok yahoo_news, log1)
          /\ scrape_google_news Example.repr Example.yahoo_only
               Example.parser Example.console (VStr "S&P 500")
               (VFloat float_3_14) log1
             = (Ok google_news, log2)
          /\ scrape_finviz_news Example.yahoo_only Example.parser
               Example.console (VStr "^GSPC") (VStr "S&P 500") log2
             = (Ok finviz_news, log')
          /\ (drivers_of yahoo_news ++ drivers_of google_news
              ++ drivers_of finviz_news = [] ->
              List.length (drivers a) = 3 /\ List.length (sources a) = 2)
          /\ (drivers_of yahoo_news ++ drivers_of google_news
              ++ drivers_of finviz_news <> [] ->
              drivers a
              = firstn 3 (dedupe_first (drivers_of yahoo_news
                                        ++ drivers_of google_news
                                        ++ drivers_of finviz_news))
              /\ sources a
                 = firstn 5 (dedupe_first (sources_of yahoo_news
                                           ++ sources_of google_news
                                           ++ sources_of finviz_news)))).
Proof.
  exact (analysis_drivers_nonempty Example.repr Example.yahoo_only
           Example.parser
             Example.console (VStr "^GSPC") (VStr "S&P 500") (VFloat float_3_14)
           VNone VNone []).
Defined.

(** A headline that is not inside a link: a driver without a source, in a
    result whose method is "free_scraping". *)
Lemma scraped_headline_without_source :
  exists log' a,
    get_free_news_analysis Example.repr Example.yahoo_only Example.parser
      Example.console
      (VStr "^GSPC") (VStr "S&P 500") (VFloat float_3_14) VNone VNone []
    = (Ok a, log')
    /\ drivers a = ["Stocks rally"]
    /\ method a = "free_scraping"
    /\ sources a = [].
Proof.
  do 2 eexists. split; [vm_compute; reflexivity|]. repeat split.
Qed.

Lemma no_symbols_is_a_client_error_witness :
  analyze_market Example.repr Example.online Example.parser Example.console
    (Ok (VDict [("startDate", VStr "2024-01-01"); ("endDate", VNone)])) []
  = (Ok (VDict [("error", VStr "No symbols provided")], 400), [])
  /\ analyze_market Example.repr Example.online Example.parser Example.console
       (Ok (VDict (Example.fields [] "2024-01-01" "2024-01-08"))) []
     = (Ok (VDict [("error", VStr "No symbols provided")], 400), []).
Proof.
  split.
  - apply (no_symbols_is_a_client_error Example.repr Example.online
             Example.parser Example.console). left. reflexivity.
  - apply (no_symbols_is_a_client_error Example.repr Example.online
             Example.parser Example.console). right. reflexivity.
Defined.




(** The same instruments asked for two different date ranges. *)
Lemma dates_do_not_matter_witness :
  analyze_market Example.repr Example.online Example.parser Example.console
    (Ok (VDict (Example.fields [Example.sp500; Example.euro]
                  "2024-01-01" "2024-01-08"))) []
  = analyze_market Example.repr Example.online Example.parser Example.console
      (Ok (VDict (Example.fields [Example.sp500; Example.euro]
                    "1999-12-31" "2000-01-07"))) [].
Proof.
  apply (dates_do_not_matter Example.repr Example.online Example.parser
    Example.console).
  intros key Hstart Hend. unfold Example.fields. cbn [dict_lookup].
  destruct (String.eqb "symbols" key); [reflexivity|].
  destruct (String.eqb "startDate" key) eqn:Estart.
  { apply String.eqb_eq in Estart. congruence. }
  destruct (String.eqb "endDate" key) eqn:Eend.
  { apply String.eqb_eq in Eend. congruence. }
  reflexivity.
Defined.

(** The response to a request for 2024-01-01 .. 2024-01-08 holds the
    analyses and nothing else: neither date shows up in it. *)
Lemma date_range_is_not_echoed :
  exists analyses log',
    analyze_market Example.repr Example.online Example.parser Example.console
      (Ok (VDict (Example.fields [Example.sp500] "2024-01-01" "2024-01-08")))
      []
    = (Ok (VDict [("analyses", VList analyses)], 200), log')
    /\ mentions "2024-01-01" (VDict [("analyses", VList analyses)]) = false
    /\ mentions "2024-01-08" (VDict [("analyses", VList analyses)]) = false.
Proof.
  do 2 eexists. split; [vm_compute; reflexivity|].
  split; vm_compute; reflexivity.
Qed.

(** The second of three elements has no changePercent: the first one is
    analysed, and the response is the 500 with the name of the key. *)
Lemma missing_key_fails_the_request_witness :
  (exists e log',
      analyze_market Example.repr Example.offline Example.parser Example.console
        (Ok (VDict (Example.fields
                      [Example.euro; VDict Example.incomplete; Example.gold]
                      "2024-01-01" "2024-01-08"))) []
      = (Ok (VDict [("error", VStr (str_exn e))], 500), log'))
  /\ (exists computed log',
         analyze_symbols Example.repr Example.offline Example.parser
           Example.console
           (VStr "2024-01-01") (VStr "2024-01-08") [Example.euro] [] []
         = (Ok computed, log')
         /\ Forall2 answers [Example.euro] computed
         /\ analyze_market Example.repr Example.offline Example.parser
           Example.console
              (Ok (VDict (Example.fields
                            [Example.euro; VDict Example.incomplete;
                             Example.gold]
                            "2024-01-01" "2024-01-08"))) []
            = (Ok (VDict [("error", VStr "'changePercent'")], 500), log')).
Proof.
  destruct (missing_key_fails_the_request Example.repr Example.offline
              Example.parser Example.console
              (Example.fields
                 [Example.euro; VDict Example.incomplete; Example.gold]
                 "2024-01-01" "2024-01-08")
              [Example.euro; VDict Example.incomplete; Example.gold] [])
    as [Hfails Hfirst].
  - reflexivity.
  - right. left. reflexivity.
  - split; [exact Hfails|].
    apply (Hfirst [Example.euro] Example.incomplete [Example.gold]
             "changePercent").
    + reflexivity.
    + repeat constructor.
    + reflexivity.
Defined.

Lemma health_check_is_static_witness :
  valid_datetime (Example.now [])
  /\ exists timestamp,
       health_check Example.now []
       = (Ok (VDict [ ("status", VStr "healthy");
                      ("method", VStr "free_scraping");
                      ("sources", VList [ VStr "Yahoo Finance";
                                          VStr "Google News";
                                          VStr "Finviz" ]);
                      ("timestamp", VStr timestamp) ], 200),
          [])
       /\ Iso8601.parse timestamp = Some (Example.now []).
Proof.
  assert (Hvalid : valid_datetime (Example.now [])).
  { unfold valid_datetime. cbn. lia. }
  split; [exact Hvalid|].
  apply (health_check_is_static Example.now [] Hvalid).
Defined.

(** The timestamp of the example clock. *)
Example health_timestamp :
  isoformat (Example.now []) = "2024-01-08T09:30:00.123456".
Proof. reflexivity. Qed.

(* ================================================================= *)
(** ** The further properties at work in the concrete worlds *)

(** The bodies [[]] and [null]. *)
Lemma body_that_is_not_an_object_witness :
  analyze_market Example.repr Example.online Example.parser
    Example.console (Ok (VList [])) []
  = (Ok (VDict [("error", VStr "'list' object has no attribute 'get'")], 500),
     [])
  /\ analyze_market Example.repr Example.online Example.parser
    Example.console (Ok VNone) []
     = (Ok (VDict [("error", VStr "'NoneType' object has no attribute 'get'")],
            500), []).
Proof.
  split.
  - apply (body_that_is_not_an_object Example.repr Example.online
             Example.parser Example.console (VList []) []). reflexivity.
  - apply (body_that_is_not_an_object Example.repr Example.online
             Example.parser Example.console VNone []). reflexivity.
Defined.

(** [{"symbols": 5}] is a 500 and [{"symbols": null}] a 400. *)
Lemma symbols_that_is_not_a_list_witness :
  (exists body,
      analyze_market Example.repr Example.online Example.parser Example.console
        (Ok (VDict [("symbols", VInt 5)])) []
      = (Ok (body, 500), [])
      /\ exists text, body = VDict [("error", VStr text)])
  /\ (exists body,
         analyze_market Example.repr Example.online Example.parser
           Example.console
           (Ok (VDict [("symbols", VNone)])) []
         = (Ok (body, 400), [])
         /\ exists text, body = VDict [("error", VStr text)]).
Proof.
  split.
  - apply (symbols_that_is_not_a_list Example.repr Example.online
             Example.parser
               Example.console [("symbols", VInt 5)] (VInt 5) []); reflexivity.
  - apply (symbols_that_is_not_a_list Example.repr Example.online
             Example.parser
               Example.console [("symbols", VNone)] VNone []); reflexivity.
Defined.

(** What the Yahoo scraper returns for the page of [Example.online]. *)
Lemma scraper_results_are_well_formed_witness :
  well_formed_result
    {| sr_drivers := ["A"; "B"];
       sr_sources := [ "A... - https://finance.yahoo.com/news/a";
                       "B... - https://finance.yahoo.com/news/b" ] |}.
Proof.
  eapply (scraper_results_are_well_formed Example.repr Example.online
            Example.parser
              Example.console (VStr "^GSPC") (VStr "S&P 500") (VFloat float_3_14)
            []).
  left. vm_compute. reflexivity.
Defined.

(** Two instruments and no site reachable: two pauses, six requests. *)
Lemma batch_is_throttled_witness :
  exists analyses evs,
    analyze_market Example.repr Example.offline Example.parser Example.console
      (Ok (VDict (Example.fields [Example.sp500; Example.euro]
                    "2024-01-01" "2024-01-08"))) []
    = (Ok (VDict [("analyses", VList analyses)], 200), [] ++ evs)
    /\ sleeps evs = repeat 1 (List.length [Example.sp500; Example.euro])
    /\ List.length [Example.sp500; Example.euro]
       <= List.length (gets evs)
       <= 3 * List.length [Example.sp500; Example.euro]
    /\ (writable Example.console ->
        2 * List.length [Example.sp500; Example.euro]
        <= List.length (gets evs))
    /\ Forall as_configured evs.
Proof.
  apply (batch_is_throttled Example.repr Example.offline Example.parser
           Example.console
           (Example.fields [Example.sp500; Example.euro]
              "2024-01-01" "2024-01-08")
           [Example.sp500; Example.euro] []).
  - reflexivity.
  - discriminate.
  - repeat constructor.
Defined.

(** The standard output has been closed and no site can be reached: the
    analysis stops after the Yahoo request, with the method "error". *)
Example requests_stop_when_print_fails :
  exists a evs,
    get_free_news_analysis Example.repr Example.offline Example.parser
      Example.closed_stdout (VStr "^GSPC") (VStr "S&P 500")
      (VFloat float_3_14) VNone VNone []
    = (Ok a, evs)
    /\ gets evs = ["https://finance.yahoo.com/quote/^GSPC/news"]
    /\ method a = "error".
Proof. do 2 eexists. split; [reflexivity|]. split; reflexivity. Qed.

(** The same for a batch of two instruments: one request for each. *)
Example batch_on_closed_stdout :
  exists analyses evs,
    analyze_market Example.repr Example.offline Example.parser
      Example.closed_stdout
      (Ok (VDict (Example.fields [Example.sp500; Example.euro]
                    "2024-01-01" "2024-01-08"))) []
    = (Ok (VDict [("analyses", VList analyses)], 200), evs)
    /\ gets evs = [ "https://finance.yahoo.com/quote/^GSPC/news";
                    "https://finance.yahoo.com/quote/EURUSD=X/news" ]
    /\ sleeps evs = [1; 1].
Proof. do 2 eexists. split; [vm_compute; reflexivity|]. split; reflexivity. Qed.

(** A changePercent that is the string "n/a", with a headline scraped. *)
Lemma scraped_headlines_hide_bad_input_witness :
  exists log3,
    get_free_news_analysis Example.repr Example.yahoo_only Example.parser
      Example.console
      (VStr "^GSPC") (VStr "S&P 500") (VStr "n/a") VNone VNone []
    = (Ok {| drivers := ["Stocks rally"]; sources := [];
             method := "free_scraping" |}, log3).
Proof.
  eexists.
  refine (proj2 (scraped_headlines_hide_bad_input Example.repr
                   Example.yahoo_only Example.parser Example.console
                   (VStr "^GSPC") (VStr "S&P 500") (VStr "n/a") VNone VNone
                   [] _ _ _
                   (Some {| sr_drivers := ["Stocks rally"]; sr_sources := [] |})
                   None None _ _ _ _)).
  - vm_compute. reflexivity.
  - vm_compute. reflexivity.
  - vm_compute. reflexivity.
  - left. discriminate.
Defined.

(** A changePercent that is [null], with nothing scraped. *)
Lemma bad_input_surfaces_in_the_fallback_witness :
  exists log3,
    get_free_news_analysis Example.repr Example.offline Example.parser
      Example.console
      (VStr "^GSPC") (VStr "S&P 500") VNone VNone VNone []
    = (Ok {| drivers :=
               [ "Unable to fetch news: '>' not supported between instances of 'NoneType' and 'int'" ];
             sources := []; method := "error" |}, log3).
Proof.
  eexists.
  refine (proj1 (bad_input_surfaces_in_the_fallback Example.repr
                   Example.offline Example.parser Example.console
                   (VStr "^GSPC") (VStr "S&P 500") VNone VNone VNone
                   [] _ _ _ _ _ _) _).
  - vm_compute. reflexivity.
  - vm_compute. reflexivity.
  - vm_compute. reflexivity.
  - reflexivity.
Defined.

(** Yahoo has "A" and "B": they come first, and one place is left, for
    Google's "C" ("A" is not new). *)
Lemma yahoo_headlines_come_first_witness :
  exists log3 a,
    get_free_news_analysis Example.repr Example.online Example.parser
      Example.console
      (VStr "^GSPC") (VStr "S&P 500") (VFloat float_3_14) VNone VNone []
    = (Ok a, log3)
    /\ drivers a = ["A"; "B"] ++ ["C"].
Proof.
  eexists.
  edestruct (yahoo_headlines_come_first Example.repr Example.online
               Example.parser Example.console (VStr "^GSPC") (VStr "S&P 500")
               (VFloat float_3_14) VNone VNone [])
    as (a & Ha & Hdrivers & _).
  - vm_compute. reflexivity.
  - vm_compute. reflexivity.
  - vm_compute. reflexivity.
  - vm_compute. discriminate.
  - exists a. split; [exact Ha|]. rewrite Hdrivers. vm_compute. reflexivity.
Defined.

(** A change of -7 reads "decreased by 7.00%". *)
Lemma integer_change_is_shown_with_two_zeros_witness :
  exists advice trends sources,
    fallback Example.repr (VStr "GC=F") (VStr "Gold") (VInt (-7)) []
    = (Ok ([ "Gold decreased by 7.00% during this period.";
             advice; trends ], sources), []).
Proof.
  apply (integer_change_is_shown_with_two_zeros Example.repr "GC=F"
           (VStr "Gold") (-7) []).
  vm_compute. reflexivity.
Defined.

(** 10^400, with no site reachable. *)
Lemma integer_too_large_for_the_fallback_witness :
  exists log3,
    get_free_news_analysis Example.repr Example.offline Example.parser
      Example.console
      (VStr "X") (VStr "Test Index") (VInt (10 ^ 400)) VNone VNone []
    = (Ok {| drivers :=
               ["Unable to fetch news: int too large to convert to float"];
             sources := []; method := "error" |}, log3).
Proof.
  eexists.
  eapply (integer_too_large_for_the_fallback Example.repr Example.offline
            Example.parser
              Example.console (VStr "X") (VStr "Test Index") VNone VNone
            (10 ^ 400) []).
  - vm_compute. reflexivity.
  - vm_compute. reflexivity.
  - vm_compute. reflexivity.
  - apply Z.leb_le. vm_compute. reflexivity.
Defined.

Lemma timestamps_are_distinct_witness :
  Example.now [] = Example.now [Sleep 1].
Proof.
  apply timestamps_are_distinct.
  - unfold valid_datetime. cbn. lia.
  - unfold valid_datetime. cbn. lia.
  - reflexivity.
Defined.

(** One request for the S&P 500 and then one for the euro, against one
    request for both. *)
Lemma batches_compose_witness :
  exists first second log1 log2,
    analyze_market Example.repr Example.offline Example.parser Example.console
      (Ok (VDict (Example.fields [Example.sp500] "2024-01-01" "2024-01-08")))
      []
    = (Ok (VDict [("analyses", VList first)], 200), log1)
    /\ analyze_market Example.repr Example.offline Example.parser
      Example.console
         (Ok (VDict (Example.fields [Example.euro] "2024-02-01" "2024-02-08")))
         log1
       = (Ok (VDict [("analyses", VList second)], 200), log2)
    /\ analyze_market Example.repr Example.offline Example.parser
      Example.console
         (Ok (VDict (Example.fields [Example.sp500; Example.euro]
                       "2024-03-01" "2024-03-08"))) []
       = (Ok (VDict [("analyses", VList (first ++ second))], 200), log2).
Proof.
  do 4 eexists.
  split; [vm_compute; reflexivity|].
  split; [vm_compute; reflexivity|].
  eapply (batches_compose Example.repr Example.offline Example.parser
    Example.console
            (Example.fields [Example.sp500] "2024-01-01" "2024-01-08")
            (Example.fields [Example.euro] "2024-02-01" "2024-02-08")
            (Example.fields [Example.sp500; Example.euro]
               "2024-03-01" "2024-03-08")
            [Example.sp500] [Example.euro]).
  - reflexivity.
  - reflexivity.
  - reflexivity.
  - vm_compute. reflexivity.
  - vm_compute. reflexivity.
Defined.

(** Three blank headlines and then "Markets today": no result. *)
Lemma blank_headlines_use_up_the_limit_witness :
  no_result
    (scrape_yahoo_finance_news Example.repr Example.blank_site
       Example.blank_parser Example.console (VStr "^GSPC") (VStr "S&P 500")) [].
Proof.
  edestruct (blank_headlines_use_up_the_limit Example.repr Example.blank_site
               Example.blank_parser
                 Example.console (VStr "^GSPC") (VStr "S&P 500")
               (VFloat float_3_14) [] "blanks")
    as (Hyahoo & _).
  - reflexivity.
  - apply Hyahoo; [reflexivity|]. repeat constructor.
Defined.

(** A short title and a title of 60 characters. *)
Lemma citation_cuts_the_title_witness :
  citation "Stocks rally" "https://x.test/a"
  = "Stocks rally... - https://x.test/a"
  /\ citation "123456789012345678901234567890123456789012345678901234567890"
       "https://x.test/b"
     = "12345678901234567890123456789012345678901234567890... - https://x.test/b".
Proof.
  split.
  - apply (proj2 (citation_cuts_the_title "Stocks rally" "https://x.test/a")).
    cbn. lia.
  - reflexivity.
Defined.
